(** * A shallow embedding of the Assuan line codec and connection dispatcher
    of assuan_rs (src/command.rs, src/request.rs, src/response.rs,
    src/server.rs and the borrowed-string codec of src/lib.rs).

    Rust strings ([&str], [String]) are modelled as [string], read as the
    sequence of their UTF-8 bytes: one [ascii] per byte.  [str::len] is
    therefore [String.length], and byte slicing ([s[..1]], [s[1..]]) is
    modelled with Rust's char-boundary check, a failed check being a panic.
    Panics are modelled by [None] in an [option] result. *)

From Stdlib Require Import Strings.String Strings.Ascii List Arith NArith Bool Lia.
From Stdlib Require Import Numbers.DecimalString Numbers.DecimalN.
Import ListNotations.
Open Scope bool_scope.
Open Scope string_scope.

(** ** Bytes and UTF-8 *)

Definition byte (c : ascii) : N := N_of_ascii c.

(** A UTF-8 continuation byte: [0x80 ..= 0xBF]. *)
Definition is_cont (c : ascii) : bool :=
  (128 <=? byte c)%N && (byte c <=? 191)%N.

Definition in_range (lo hi : N) (c : ascii) : bool :=
  (lo <=? byte c)%N && (byte c <=? hi)%N.

(** Well-formed UTF-8 (RFC 3629), the invariant of every Rust [&str]. *)
Fixpoint valid_utf8 (s : string) : bool :=
  match s with
  | EmptyString => true
  | String c0 s1 =>
      if (byte c0 <? 128)%N then valid_utf8 s1
      else if in_range 194 223 c0 then
        match s1 with
        | String c1 s2 => is_cont c1 && valid_utf8 s2
        | EmptyString => false
        end
      else if in_range 224 244 c0 then
        match s1 with
        | String c1 (String c2 s3) =>
            let ok1 :=
              if (byte c0 =? 224)%N then in_range 160 191 c1
              else if (byte c0 =? 237)%N then in_range 128 159 c1
              else if (byte c0 =? 240)%N then in_range 144 191 c1
              else if (byte c0 =? 244)%N then in_range 128 143 c1
              else is_cont c1 in
            if (byte c0 <? 240)%N then ok1 && is_cont c2 && valid_utf8 s3
            else match s3 with
                 | String c3 s4 => ok1 && is_cont c2 && is_cont c3 && valid_utf8 s4
                 | EmptyString => false
                 end
        | _ => false
        end
      else false
  end.

(** ** [str::trim]

    [char::is_whitespace] is Unicode's White_Space property: U+0009..U+000D,
    U+0020, U+0085, U+00A0, U+1680, U+2000..U+200A, U+2028, U+2029, U+202F,
    U+205F and U+3000.  On UTF-8 bytes these are one-, two- and three-byte
    sequences. *)

Definition ascii_ws (c : ascii) : bool :=
  in_range 9 13 c || (byte c =? 32)%N.

Definition ws2 (c d : ascii) : bool :=
  (byte c =? 194)%N && ((byte d =? 133)%N || (byte d =? 160)%N).

Definition ws3 (c d e : ascii) : bool :=
  ((byte c =? 225)%N && (byte d =? 154)%N && (byte e =? 128)%N)
  || ((byte c =? 226)%N && (byte d =? 128)%N
      && (in_range 128 138 e || (byte e =? 168)%N || (byte e =? 169)%N
          || (byte e =? 175)%N))
  || ((byte c =? 226)%N && (byte d =? 129)%N && (byte e =? 159)%N)
  || ((byte c =? 227)%N && (byte d =? 128)%N && (byte e =? 128)%N).

(** [str::trim_start]: drop whitespace characters from the front. *)
Fixpoint trim_start (s : string) : string :=
  match s with
  | EmptyString => EmptyString
  | String c s1 =>
      if ascii_ws c then trim_start s1 else
      match s1 with
      | String d s2 =>
          if ws2 c d then trim_start s2 else
          match s2 with
          | String e s3 => if ws3 c d e then trim_start s3 else s
          | EmptyString => s
          end
      | EmptyString => s
      end
  end.

(** The whole string is a sequence of whitespace characters. *)
Fixpoint all_ws (s : string) : bool :=
  match s with
  | EmptyString => true
  | String c s1 =>
      if ascii_ws c then all_ws s1 else
      match s1 with
      | String d s2 =>
          if ws2 c d then all_ws s2 else
          match s2 with
          | String e s3 => ws3 c d e && all_ws s3
          | EmptyString => false
          end
      | EmptyString => false
      end
  end.

(** [str::trim_end]: keep every byte up to the last one that is not part of
    a trailing run of whitespace characters. *)
Fixpoint trim_end (s : string) : string :=
  match s with
  | EmptyString => EmptyString
  | String c s1 => if all_ws s then EmptyString else String c (trim_end s1)
  end.

Definition trim (s : string) : string := trim_end (trim_start s).

(** ** [str::split_once] on a single-byte (ASCII) pattern *)

Fixpoint split_once (p : ascii) (s : string) : option (string * string) :=
  match s with
  | EmptyString => None
  | String c s1 =>
      if Ascii.eqb c p then Some (EmptyString, s1)
      else match split_once p s1 with
           | Some (a, b) => Some (String c a, b)
           | None => None
           end
  end.

(** ** Byte slicing with the char-boundary check ([None] = panic) *)

(** [s.is_char_boundary(1)] for a non-empty [s]. *)
Definition boundary1 (s : string) : bool :=
  match s with
  | String _ (String c _) => negb (is_cont c)
  | _ => true
  end.

(** [&s[..1]] *)
Definition slice_to1 (s : string) : option string :=
  match s with
  | EmptyString => None
  | String c _ => if boundary1 s then Some (String c EmptyString) else None
  end.

(** [&s[1..]] *)
Definition slice_from1 (s : string) : option string :=
  match s with
  | EmptyString => None
  | String _ s1 => if boundary1 s then Some s1 else None
  end.

(** ** Decimal numbers *)

Definition N_to_string (n : N) : string := NilEmpty.string_of_uint (N.to_uint n).

Definition digit_val (c : ascii) : option N :=
  if in_range 48 57 c then Some (byte c - 48)%N else None.

Fixpoint parse_digits (s : string) (acc : N) : option N :=
  match s with
  | EmptyString => Some acc
  | String c s1 =>
      match digit_val c with
      | Some d => parse_digits s1 (acc * 10 + d)%N
      | None => None
      end
  end.

(** Modelled from the spec: the [errors] module (not in the sources) parses
    an error-code token "as an unsigned integer" of the protocol family's
    32-bit error encoding: a non-empty run of decimal digits below 2^32. *)
Definition parse_u32 (s : string) : option N :=
  match s with
  | EmptyString => None
  | _ => match parse_digits s 0 with
         | Some n => if (n <? 4294967296)%N then Some n else None
         | None => None
         end
  end.

(** ** [command.rs]

    Modelled from the spec: the [Command] enum of [crate::command] (its
    [TryFrom<&str>], [AsRef<str>] and [Display]) is not in the sources; only
    its keyword constants are.  The spec describes a closed set of keywords
    matched case-sensitively and exactly, each with one textual form. *)

Module Command.
Inductive t :=
  | Bye | Reset | End | Help | Quit | Option | Cancel | Nop
  | Ok | Err | S | Inquire | D | Comment.

Definition as_ref (c : t) : string :=
    match c with
    | Bye => "BYE" | Reset => "RESET" | End => "END" | Help => "HELP"
    | Quit => "QUIT" | Option => "OPTION" | Cancel => "CANCEL" | Nop => "NOP"
    | Ok => "OK" | Err => "ERR" | S => "S" | Inquire => "INQUIRE"
    | D => "D" | Comment => "#"
    end.

Definition all : list t :=
    [Bye; Reset; End; Help; Quit; Option; Cancel; Nop;
     Ok; Err; S; Inquire; D; Comment].

  (** [Command::try_from(&str)]: [None] is the [Err] of the conversion. *)
Definition try_from (s : string) : option t :=
    find (fun c => String.eqb (as_ref c) s) all.
End Command.

(** ** [request.rs] *)

Module Request.
Inductive t :=
  | Comment (text : option string)
  | D (data : string)
  | Bye
  | Reset
  | End
  | Help
  | Quit
  | Option (kv : string * option string)
  | Cancel
  | Nop
  | Unknown (cp : string * option string).
End Request.

(** The [command_and_parameters] split shared by both parsers of
    request.rs/response.rs. *)
Definition command_and_parameters (input : string) : string * option string :=
  match split_once " " input with
  | None => (input, None)
  | Some (a, EmptyString) => (trim a, None)
  | Some (a, b) => (trim a, Some (trim b))
  end.

(** [match x.trim() { "" => None, s => Some(s) }] *)
Definition non_empty (s : string) : option string :=
  match s with
  | EmptyString => None
  | _ => Some s
  end.

(** [impl From<&str> for Request] (request.rs). *)
Definition request_from (input : string) : option Request.t :=
  let cp := command_and_parameters input in
  match slice_to1 (fst cp) with
  | None => None
  | Some h =>
      if String.eqb h (Command.as_ref Command.Comment) then
        match slice_from1 input with
        | None => None
        | Some r => Some (Request.Comment (non_empty (trim r)))
        end
      else
        match Command.try_from (fst cp) with
        | None => Some (Request.Unknown cp)
        | Some cmd =>
            Some (match cmd, snd cp with
                  | Command.Bye, _ => Request.Bye
                  | Command.Reset, _ => Request.Reset
                  | Command.End, _ => Request.End
                  | Command.Help, _ => Request.Help
                  | Command.Quit, _ => Request.Quit
                  | Command.Option, Some arg =>
                      match split_once "=" arg with
                      | Some (k, v) => Request.Option (trim k, Some (trim v))
                      | None =>
                          match split_once " " arg with
                          | Some (k, v) => Request.Option (trim k, Some (trim v))
                          | None => Request.Option (trim arg, None)
                          end
                      end
                  | Command.Cancel, _ => Request.Cancel
                  | Command.Nop, _ => Request.Nop
                  | Command.D, Some p => Request.D p
                  | _, _ => Request.Unknown cp
                  end)
        end
  end.

(** [impl Display for Request] (request.rs). *)
Definition request_fmt (r : Request.t) : string :=
  match r with
  | Request.Bye => Command.as_ref Command.Bye
  | Request.Reset => Command.as_ref Command.Reset
  | Request.End => Command.as_ref Command.End
  | Request.Help => Command.as_ref Command.Help
  | Request.Quit => Command.as_ref Command.Quit
  | Request.Cancel => Command.as_ref Command.Cancel
  | Request.Nop => Command.as_ref Command.Nop
  | Request.D v => Command.as_ref Command.D ++ " " ++ v
  | Request.Comment None => Command.as_ref Command.Comment
  | Request.Comment (Some v) => Command.as_ref Command.Comment ++ " " ++ v
  | Request.Option (k, None) => Command.as_ref Command.Option ++ " " ++ k
  | Request.Option (k, Some v) => Command.as_ref Command.Option ++ " " ++ k ++ "=" ++ v
  | Request.Unknown (c, None) => c
  | Request.Unknown (c, Some p) => c ++ " " ++ p
  end.

Example request_from_tests :
  request_from "BYE" = Some Request.Bye /\
  request_from "#" = Some (Request.Comment None) /\
  request_from "#### some content" = Some (Request.Comment (Some "### some content")) /\
  request_from "OPTION" = Some (Request.Unknown ("OPTION", None)) /\
  request_from "OPTION option    =  value" = Some (Request.Option ("option", Some "value")) /\
  request_from "OPTION option value" = Some (Request.Option ("option", Some "value")) /\
  request_from "D" = Some (Request.Unknown ("D", None)) /\
  request_from "D with data" = Some (Request.D "with data") /\
  request_from "UNKNOWN" = Some (Request.Unknown ("UNKNOWN", None)).
Proof. vm_compute. repeat split. Qed.

(** ** The [errors] module

    Modelled from the spec: [crate::errors] ([GpgErrorCode], [Custom], their
    [TryFrom<&str>] and [Display]) is not in the sources.  The spec: a code
    token is parsed as an unsigned integer; a value in the fixed table of
    well-known codes is a [GpgErrorCode], any other value a [Custom] code
    carrying the raw number; both render as their number.  The table below
    holds the well-known codes the sources name ([Eof] = 16383 from the
    tests, [UnknownErrno], [Unexpected], [TooLarge]) and two more, with their
    libgpg-error values; the theorems below do not depend on which values it
    lists. *)

Module GpgErrorCode.
Inductive t := NoError | General | Unexpected | TooShort | TooLarge
               | UnknownErrno | Eof.

Definition code (c : t) : N :=
    match c with
    | NoError => 0 | General => 1 | Unexpected => 38 | TooShort => 66
    | TooLarge => 67 | UnknownErrno => 16382 | Eof => 16383
    end.

Definition all : list t :=
    [NoError; General; Unexpected; TooShort; TooLarge; UnknownErrno; Eof].

Definition from_code (n : N) : option t :=
    find (fun c => N.eqb (code c) n) all.

  (** [GpgErrorCode::try_from(&str)] *)
Definition try_from (s : string) : option t :=
    match parse_u32 s with
    | Some n => from_code n
    | None => None
    end.

Definition fmt (c : t) : string := N_to_string (code c).
End GpgErrorCode.

Module Custom.
Record t := mk { value : N }.

  (** [errors::Custom::try_from(&str)] *)
Definition try_from (s : string) : option t :=
    match parse_u32 s with
    | Some n => Some (mk n)
    | None => None
    end.

Definition fmt (c : t) : string := N_to_string (value c).
End Custom.

(** ** [response.rs] *)

Module ResponseErr.
Inductive t :=
  | Gpg (c : GpgErrorCode.t)
  | Custom (c : Custom.t).

Definition fmt (e : t) : string :=
    match e with
    | Gpg s => GpgErrorCode.fmt s
    | Custom s => Custom.fmt s
    end.
End ResponseErr.

Module Response.
Inductive t :=
  | Ok (data : option string)
  | Err (e : ResponseErr.t * option string)
  | S (kv : string * string)
  | D (data : string)
  | Inquire (kv : string * string)
  | Comment (text : option string)
  | Custom (cp : string * option string).
End Response.

(** [impl Display for Response] (response.rs). *)
Definition response_fmt (r : Response.t) : string :=
  match r with
  | Response.D v => Command.as_ref Command.D ++ " " ++ v
  | Response.S (k, v) => Command.as_ref Command.S ++ " " ++ k ++ " " ++ v
  | Response.Inquire (k, v) => Command.as_ref Command.Inquire ++ " " ++ k ++ " " ++ v
  | Response.Comment None => Command.as_ref Command.Comment
  | Response.Comment (Some v) => Command.as_ref Command.Comment ++ " " ++ v
  | Response.Ok None => Command.as_ref Command.Ok
  | Response.Ok (Some v) => Command.as_ref Command.Ok ++ " " ++ v
  | Response.Err (id, None) => Command.as_ref Command.Err ++ " " ++ ResponseErr.fmt id
  | Response.Err (id, Some v) =>
      Command.as_ref Command.Err ++ " " ++ ResponseErr.fmt id ++ " " ++ v
  | Response.Custom (s, None) => s
  | Response.Custom (s, Some v) => s ++ " " ++ v
  end.

(** The split of an [ERR] remainder into code token and description. *)
Definition err_token_split (p : string) : string * option string :=
  match split_once " " p with
  | None => (p, None)
  | Some (e, EmptyString) => (e, None)
  | Some (e, v) => (e, Some v)
  end.

(** The decoding of an [ERR] code token in [Response::from]:
    [GpgErrorCode], then [Custom], then the [UnknownErrno] fallback. *)
Definition decode_error (e : string) : ResponseErr.t :=
  match GpgErrorCode.try_from e with
  | Some ec => ResponseErr.Gpg ec
  | None =>
      match Custom.try_from e with
      | Some ec => ResponseErr.Custom ec
      | None => ResponseErr.Gpg GpgErrorCode.UnknownErrno
      end
  end.

(** [impl From<&str> for Response] (response.rs). *)
Definition response_from (input : string) : option Response.t :=
  let cp := command_and_parameters input in
  match slice_to1 (fst cp) with
  | None => None
  | Some h =>
      if String.eqb h (Command.as_ref Command.Comment) then
        match slice_from1 input with
        | None => None
        | Some r => Some (Response.Comment (non_empty (trim r)))
        end
      else
        match Command.try_from (fst cp) with
        | None => Some (Response.Custom cp)
        | Some cmd =>
            Some (match cmd, snd cp with
                  | Command.Ok, v => Response.Ok v
                  | Command.D, Some p => Response.D p
                  | Command.Err, Some p =>
                      let (e, d) := err_token_split p in
                      Response.Err (decode_error e, d)
                  | Command.Inquire, Some p =>
                      match split_once " " p with
                      | None => Response.Custom (Command.as_ref Command.Inquire, Some p)
                      | Some (_, EmptyString) =>
                          Response.Custom (Command.as_ref Command.Inquire, Some p)
                      | Some (k, v) => Response.Inquire (k, v)
                      end
                  | Command.S, Some p =>
                      match split_once " " p with
                      | None => Response.Custom (Command.as_ref Command.S, Some p)
                      | Some (_, EmptyString) =>
                          Response.Custom (Command.as_ref Command.S, Some p)
                      | Some (k, v) => Response.S (k, v)
                      end
                  | _, _ => Response.Custom cp
                  end)
        end
  end.

Example response_from_tests :
  response_from "OK" = Some (Response.Ok None) /\
  response_from "OK data" = Some (Response.Ok (Some "data")) /\
  response_from "ERR" = Some (Response.Custom ("ERR", None)) /\
  response_from "ERR 16383" =
    Some (Response.Err (ResponseErr.Gpg GpgErrorCode.Eof, None)) /\
  response_from "ERR 16383 with description" =
    Some (Response.Err (ResponseErr.Gpg GpgErrorCode.Eof, Some "with description")) /\
  response_from "ERR 32909 with description" =
    Some (Response.Err (ResponseErr.Custom (Custom.mk 32909), Some "with description")) /\
  response_from "S keyword" = Some (Response.Custom ("S", Some "keyword")) /\
  response_from "S keyword status information" =
    Some (Response.S ("keyword", "status information")) /\
  response_from "INQUIRE keyword params" = Some (Response.Inquire ("keyword", "params")) /\
  response_from "D" = Some (Response.Custom ("D", None)) /\
  response_from "### comment data" = Some (Response.Comment (Some "## comment data")) /\
  response_fmt (Response.Err (ResponseErr.Gpg GpgErrorCode.TooLarge, None)) = "ERR 67".
Proof. vm_compute. repeat split. Qed.

(** ** The borrowed-string codec of lib.rs

    lib.rs declares its own [Request<'a>] and [Response<'a>] over [&str].
    The request type has the same shape as request.rs's and is modelled by
    [Request.t]; the response type differs in its [Err] field, a raw code
    token. *)

Module LibResponse.
Inductive t :=
  | Ok (data : option string)
  | Err (e : string * option string)
  | S (kv : string * string)
  | D (data : string)
  | Inquire (kv : string * string)
  | Comment (text : option string)
  | Custom (cp : string * option string).
End LibResponse.

(** [impl<'a> From<&'a str> for Request<'a>] (lib.rs); its
    [command_and_parameters] is the same split as request.rs's. *)
Definition lib_request_from (input : string) : option Request.t :=
  let cp := command_and_parameters input in
  match slice_to1 (fst cp) with
  | None => None
  | Some h =>
      if String.eqb h "#" then Some (Request.Comment (snd cp))
      else Some (
        let (command, parameters) := cp in
        if String.eqb command "BYE" then Request.Bye
        else if String.eqb command "RESET" then Request.Reset
        else if String.eqb command "END" then Request.End
        else if String.eqb command "HELP" then Request.Help
        else if String.eqb command "QUIT" then Request.Quit
        else if String.eqb command "OPTION" then
          match parameters with
          | Some arg =>
              match split_once "=" arg with
              | Some (k, v) => Request.Option (k, Some v)
              | None =>
                  match split_once " " arg with
                  | Some (k, v) => Request.Option (k, Some v)
                  | None => Request.Option (arg, None)
                  end
              end
          | None => Request.Unknown (command, parameters)
          end
        else if String.eqb command "CANCEL" then Request.Cancel
        else if String.eqb command "NOP" then Request.Nop
        else if String.eqb command "D" then
          match parameters with
          | Some p => Request.D p
          | None => Request.Unknown (command, parameters)
          end
        else Request.Unknown (command, parameters))
  end.

(** [impl<'a> From<&'a str> for Response<'a>] (lib.rs); its [println!] of
    the input is an output effect that does not change the value. *)
Definition lib_response_from (input : string) : option LibResponse.t :=
  let cp := command_and_parameters input in
  match slice_to1 (fst cp) with
  | None => None
  | Some h =>
      if String.eqb h "#" then Some (LibResponse.Comment (snd cp))
      else Some (
        let (command, parameters) := cp in
        if String.eqb command "OK" then LibResponse.Ok parameters
        else match parameters with
        | Some p =>
            if String.eqb command "D" then LibResponse.D p
            else if String.eqb command "ERR" then
              match split_once " " p with
              | None => LibResponse.Err (p, None)
              | Some (e, EmptyString) => LibResponse.Err (e, None)
              | Some (e, v) => LibResponse.Err (e, Some v)
              end
            else if String.eqb command "INQUIRE" then
              match split_once " " p with
              | None => LibResponse.Custom cp
              | Some (_, EmptyString) => LibResponse.Custom cp
              | Some (k, v) => LibResponse.Inquire (k, v)
              end
            else if String.eqb command "S" then
              match split_once " " p with
              | None => LibResponse.Custom cp
              | Some (_, EmptyString) => LibResponse.Custom cp
              | Some (k, v) => LibResponse.S (k, v)
              end
            else LibResponse.Custom (command, parameters)
        | None => LibResponse.Custom (command, parameters)
        end)
  end.

Example lib_from_tests :
  lib_request_from "# some content" = Some (Request.Comment (Some "some content")) /\
  lib_request_from "OPTION OPTION=VALUE" = Some (Request.Option ("OPTION", Some "VALUE")) /\
  lib_request_from "D" = Some (Request.Unknown ("D", None)) /\
  lib_response_from "ERR id a description" = Some (LibResponse.Err ("id", Some "a description")) /\
  lib_response_from "S keyword" = Some (LibResponse.Custom ("S", Some "keyword")) /\
  lib_response_from "ERR" = Some (LibResponse.Custom ("ERR", None)).
Proof. vm_compute. repeat split. Qed.

(** [impl Display for Request<'_>] (lib.rs). *)
Definition lib_request_fmt (r : Request.t) : string :=
  match r with
  | Request.Bye => "BYE"
  | Request.Reset => "RESET"
  | Request.End => "END"
  | Request.Help => "HELP"
  | Request.Quit => "QUIT"
  | Request.Cancel => "CANCEL"
  | Request.Nop => "NOP"
  | Request.D v => "D" ++ " " ++ v
  | Request.Comment None => "#"
  | Request.Comment (Some v) => "#" ++ " " ++ v
  | Request.Option (k, None) => "OPTION" ++ " " ++ k
  | Request.Option (k, Some v) => "OPTION" ++ " " ++ k ++ "=" ++ v
  | Request.Unknown (c, None) => c
  | Request.Unknown (c, Some p) => c ++ " " ++ p
  end.

(** [impl Display for Response<'_>] (lib.rs): the [Err] field is the raw code token. *)
Definition lib_response_fmt (r : LibResponse.t) : string :=
  match r with
  | LibResponse.D v => "D" ++ " " ++ v
  | LibResponse.S (k, v) => "S" ++ " " ++ k ++ " " ++ v
  | LibResponse.Inquire (k, v) => "INQUIRE" ++ " " ++ k ++ " " ++ v
  | LibResponse.Comment None => "#"
  | LibResponse.Comment (Some v) => "#" ++ " " ++ v
  | LibResponse.Ok None => "OK"
  | LibResponse.Ok (Some v) => "OK" ++ " " ++ v
  | LibResponse.Err (id, None) => "ERR" ++ " " ++ id
  | LibResponse.Err (id, Some v) => "ERR" ++ " " ++ id ++ " " ++ v
  | LibResponse.Custom (s, None) => s
  | LibResponse.Custom (s, Some v) => s ++ " " ++ v
  end.

(** ** [server.rs]: the connection dispatcher *)

(** Rust's [Result] for handler outcomes. *)
Inductive result (A E : Type) : Type :=
| ROk (a : A)
| RErr (e : E).
Arguments ROk {A E} a.
Arguments RErr {A E} e.

Definition HandlerResult := result (option Response.t) (ResponseErr.t * option string).
Definition OptionResult := result Response.t (ResponseErr.t * option string).
Definition HelpResult := option (list string).

(** The [Handler] trait.  Each method takes [&mut self]: its state is
    threaded through; the [async] methods are modelled by their results. *)
Class Handler (H : Type) := {
  handle : H -> string -> option string -> H * HandlerResult;
  option : H -> string -> option string -> H * OptionResult;
  help : H -> H * HelpResult;
  reset : H -> H
}.

(** One item of the input stream [Stream<Item = Result<String, io::Error>>];
    a read error carries the text of [e.to_string()]. *)
Inductive io_item :=
| ReadErr (msg : string)
| Line (l : string).

(** How [start] ends: [Ok(())], [Err(ServerError::Write(_))], or a panic
    ([unwrap] of a failed write, [todo!()], or a panicking slice in
    [Request::from]). *)
Inductive outcome :=
| ReturnOk
| ReturnWriteErr
| Panic.

(** The output sink: the lines written so far and the number of [writeln!]
    attempts made.  Each [writeln!] is one attempt, which fails or not as an
    oracle on the attempt number decides. *)
Record writer := mkWriter { attempts : nat; written : list string }.

Definition empty_writer : writer := mkWriter 0 [].

Inductive step (H : Type) : Type :=
| Continue (h : H) (w : writer)
| Stop (o : outcome) (h : H) (w : writer).
Arguments Continue {H} h w.
Arguments Stop {H} o h w.

Section Server.
Variable wfail : nat -> bool.
Context {H : Type} `{Handler H}.

  (** [writeln!(w, "{}", s).await]: [true] when the write succeeded. *)
Definition writeln (w : writer) (s : string) : bool * writer :=
    if wfail (attempts w) then (false, mkWriter (Datatypes.S (attempts w)) (written w))
    else (true, mkWriter (Datatypes.S (attempts w)) (written w ++ [s])%list).

  (** [if let Err(err) = wr { return Err(ServerError::Write(err)) }] *)
Definition after_write (h : H) (wr : bool * writer) : step H :=
    let (ok, w) := wr in if ok then Continue h w else Stop ReturnWriteErr h w.

  (** [for s in v { let _ = writeln!(w, "{}", Response::Comment(Some(s))).await; }] *)
Fixpoint write_comments (w : writer) (v : list string) : writer :=
    match v with
    | [] => w
    | s :: v' => write_comments (snd (writeln w (response_fmt (Response.Comment (Some s))))) v'
    end.

  (** The [match request { ... }] of [start], with the write check after it. *)
Definition dispatch (h : H) (w : writer) (request : Request.t) : step H :=
    match request with
    | Request.Comment _ => Continue h w
    | Request.Reset =>
        let h := reset h in
        after_write h (writeln w (response_fmt (Response.Ok None)))
    | Request.Bye => after_write h (writeln w (response_fmt (Response.Ok None)))
    | Request.Nop => after_write h (writeln w (response_fmt (Response.Ok None)))
    | Request.Option (s, v) =>
        let (h, r) := option h s v in
        match r with
        | ROk response => after_write h (writeln w (response_fmt response))
        | RErr e => after_write h (writeln w (response_fmt (Response.Err e)))
        end
    | Request.Unknown (v, o) =>
        let (h, r) := handle h v o in
        match r with
        | ROk None => Stop ReturnOk h w
        | ROk (Some response) => after_write h (writeln w (response_fmt response))
        | RErr e => after_write h (writeln w (response_fmt (Response.Err e)))
        end
    | Request.D _ => Stop Panic h w
    | Request.End => Stop Panic h w
    | Request.Help =>
        let (h, hv) := help h in
        let w := match hv with
                 | Some v => write_comments w v
                 | None => w
                 end in
        after_write h (writeln w (response_fmt (Response.Ok None)))
    | Request.Cancel => Stop Panic h w
    | Request.Quit => Stop ReturnOk h w
    end.

  (** One iteration of [while let Some(line) = r.next().await]. *)
Definition handle_line (h : H) (w : writer) (item : io_item) : step H :=
    match item with
    | ReadErr e =>
        after_write h (writeln w (response_fmt
          (Response.Err (ResponseErr.Gpg GpgErrorCode.Unexpected, Some e))))
    | Line line =>
        let line := trim line in
        if String.eqb line "" then Continue h w
        else if Nat.ltb 1000 (String.length line) then
          after_write h (writeln w (response_fmt
            (Response.Err (ResponseErr.Gpg GpgErrorCode.TooLarge, None))))
        else
          match request_from line with
          | None => Stop Panic h w
          | Some request => dispatch h w request
          end
    end.

  (** The read loop; the end of the input stream returns [Ok(())]. *)
Fixpoint serve (h : H) (w : writer) (r : list io_item) : outcome * H * writer :=
    match r with
    | [] => (ReturnOk, h, w)
    | item :: r' =>
        match handle_line h w item with
        | Continue h' w' => serve h' w' r'
        | Stop o h' w' => (o, h', w')
        end
    end.

Definition greeting : string := response_fmt (Response.Ok (Some "Pleased to meet you")).

  (** [start]: the greeting is written with [.await.unwrap()]. *)
Definition start (h : H) (r : list io_item) : outcome * H * writer :=
    let (ok, w) := writeln empty_writer greeting in
    if ok then serve h w r else (Panic, h, w).
End Server.

(** A handler used in concrete runs: it lists ["FOO"; "BAR"] as help,
    answers [OK] to options and custom commands, and ends the session on the
    custom command [BYEBYE]. *)
#[export] Instance test_handler_inst : Handler unit := {
  handle := fun h v _ =>
    if String.eqb v "BYEBYE" then (h, ROk None) else (h, ROk (Some (Response.Ok None)));
  option := fun h _ _ => (h, ROk (Response.Ok None));
  help := fun h => (h, Some ["FOO"; "BAR"]);
  reset := fun h => h
}.

Definition never_fail : nat -> bool := fun _ => false.

Example start_tests :
  start never_fail tt [Line "NOP"; Line "  "; Line "# x"; Line "HELP"; Line "QUIT"; Line "NOP"]
  = (ReturnOk, tt, mkWriter 5 ["OK Pleased to meet you"; "OK"; "# FOO"; "# BAR"; "OK"]).
Proof. vm_compute. reflexivity. Qed.

(** ** Helper definitions for the statements *)

Fixpoint sforall (f : ascii -> bool) (s : string) : bool :=
  match s with
  | EmptyString => true
  | String c s' => f c && sforall f s'
  end.

(** A printable, non-space ASCII byte ([0x21 ..= 0x7E]). *)
Definition plain (c : ascii) : bool := in_range 33 126 c.

(** Bytes of an option name or value token: printable ASCII other than [=]. *)
Definition token_byte (c : ascii) : bool := plain c && negb (byte c =? 61)%N.

Definition no_byte (p : ascii) (s : string) : bool :=
  sforall (fun c => negb (Ascii.eqb c p)) s.

Fixpoint repeat_str (n : nat) (s : string) : string :=
  match n with
  | O => EmptyString
  | Datatypes.S n' => s ++ repeat_str n' s
  end.

(** The two bytes of U+00E9 (e acute). *)
Definition e_acute : string :=
  String (ascii_of_nat 195) (String (ascii_of_nat 169) EmptyString).

(** A text that is non-empty and has no surrounding whitespace: what the
    parsers keep of a trimmed remainder. *)
Definition clean (s : string) : bool := negb (String.eqb s "") && String.eqb (trim s) s.

Definition clean_opt (o : Datatypes.option string) : bool :=
  match o with None => true | Some s => clean s end.

(** The writer after one successful [writeln!] of [s]. *)
Definition push (w : writer) (s : string) : writer :=
  mkWriter (Datatypes.S (attempts w)) (written w ++ [s])%list.

Definition comment_line (s : string) : string := response_fmt (Response.Comment (Some s)).

(** ** Lemmas on bytes, [trim] and [split_once] *)

Lemma byte_lt_256 c : (byte c < 256)%N.
Proof.
  unfold byte. destruct c as [b0 b1 b2 b3 b4 b5 b6 b7].
  destruct b0, b1, b2, b3, b4, b5, b6, b7; vm_compute; reflexivity.
Qed.

Lemma byte_inj c d : byte c = byte d -> c = d.
Proof.
  unfold byte. intros E.
  rewrite <- (ascii_N_embedding c), <- (ascii_N_embedding d), E; reflexivity.
Qed.

Lemma plain_facts c : plain c = true ->
  ascii_ws c = false /\ (forall d, ws2 c d = false) /\ (forall d e, ws3 c d e = false)
  /\ Ascii.eqb c " " = false /\ is_cont c = false.
Proof.
  unfold plain, in_range. intros Hp.
  apply andb_prop in Hp as [H1 H2].
  apply N.leb_le in H1. apply N.leb_le in H2.
  assert (E194 : (byte c =? 194)%N = false) by (apply N.eqb_neq; lia).
  assert (E225 : (byte c =? 225)%N = false) by (apply N.eqb_neq; lia).
  assert (E226 : (byte c =? 226)%N = false) by (apply N.eqb_neq; lia).
  assert (E227 : (byte c =? 227)%N = false) by (apply N.eqb_neq; lia).
  repeat split.
  - unfold ascii_ws, in_range.
    assert (A : (byte c <=? 13)%N = false) by (apply N.leb_gt; lia).
    assert (B : (byte c =? 32)%N = false) by (apply N.eqb_neq; lia).
    rewrite A, B, andb_false_r; reflexivity.
  - intros d. unfold ws2. rewrite E194. reflexivity.
  - intros d e. unfold ws3. rewrite E225, E226, E227. reflexivity.
  - destruct (Ascii.eqb_spec c " ") as [->|]; [assert (byte " " = 32%N) by reflexivity; lia | reflexivity].
  - unfold is_cont. assert (A : (128 <=? byte c)%N = false) by (apply N.leb_gt; lia).
    rewrite A. reflexivity.
Qed.

Lemma sforall_app f s t : sforall f (s ++ t) = sforall f s && sforall f t.
Proof. induction s; simpl; [reflexivity|]. rewrite IHs, andb_assoc. reflexivity. Qed.

Lemma sforall_impl (f g : ascii -> bool) s :
  (forall c, f c = true -> g c = true) -> sforall f s = true -> sforall g s = true.
Proof.
  intros Hfg. induction s; simpl; [reflexivity|].
  intros Hs. apply andb_prop in Hs as [Ha Hs]. rewrite (Hfg _ Ha), (IHs Hs). reflexivity.
Qed.

Lemma append_nil s : s ++ "" = s.
Proof. induction s; simpl; [reflexivity|]. rewrite IHs. reflexivity. Qed.

Lemma trim_start_plain c s : plain c = true -> trim_start (String c s) = String c s.
Proof.
  intros Hp. destruct (plain_facts c Hp) as (Hws & Hws2 & Hws3 & _).
  simpl. rewrite Hws. destruct s as [|d s]; [reflexivity|].
  rewrite Hws2. destruct s as [|e s]; [reflexivity|]. rewrite Hws3. reflexivity.
Qed.

Lemma ws2_high c d : ws2 c d = true -> (128 <= byte d)%N.
Proof.
  unfold ws2. intros W.
  repeat rewrite andb_true_iff in W. repeat rewrite orb_true_iff in W.
  repeat rewrite N.eqb_eq in W. lia.
Qed.

Lemma ws3_high c d e : ws3 c d e = true -> (128 <= byte d)%N /\ (128 <= byte e)%N.
Proof.
  unfold ws3, in_range. intros W.
  repeat rewrite orb_true_iff in W. repeat rewrite andb_true_iff in W.
  repeat rewrite orb_true_iff in W. repeat rewrite andb_true_iff in W.
  repeat rewrite N.eqb_eq in W. repeat rewrite N.leb_le in W.
  lia.
Qed.

Lemma high_not_plain c : (128 <= byte c)%N -> plain c = false.
Proof.
  intros Hc. unfold plain, in_range.
  rewrite (proj2 (N.leb_gt (byte c) 126)) by lia. apply andb_false_r.
Qed.

(** A run of whitespace characters holds no printable byte. *)
Lemma all_ws_no_plain : forall n s, String.length s <= n -> all_ws s = true ->
  sforall (fun c => negb (plain c)) s = true.
Proof.
  induction n as [|n IH]; intros s Hlen Hws.
  - destruct s; [reflexivity | simpl in Hlen; lia].
  - destruct s as [|c s1]; [reflexivity|]. simpl in Hlen.
    simpl in Hws |- *.
    destruct (plain c) eqn:Pc.
    + destruct (plain_facts c Pc) as (Hc & Hc2 & Hc3 & _).
      rewrite Hc in Hws. destruct s1 as [|d s2]; [discriminate|].
      rewrite Hc2 in Hws. destruct s2 as [|e s3]; [discriminate|].
      rewrite Hc3 in Hws. discriminate.
    + simpl. destruct (ascii_ws c) eqn:Wc.
      * apply IH; [lia | assumption].
      * destruct s1 as [|d s2]; [discriminate|].
        destruct (ws2 c d) eqn:W2.
        -- simpl. rewrite (high_not_plain d (ws2_high c d W2)). simpl.
           apply IH; [simpl in Hlen; lia | assumption].
        -- destruct s2 as [|e s3]; [discriminate|].
           apply andb_prop in Hws as [W3 Hws].
           destruct (ws3_high c d e W3) as [Hd He].
           simpl. rewrite (high_not_plain d Hd), (high_not_plain e He). simpl.
           apply IH; [simpl in Hlen; lia | assumption].
Qed.

Lemma all_ws_has_plain x c y : plain c = true -> all_ws (x ++ String c y) = false.
Proof.
  intros Hp. destruct (all_ws (x ++ String c y)) eqn:E; [|reflexivity].
  apply (all_ws_no_plain _ _ (le_n _)) in E.
  rewrite sforall_app in E. simpl in E. rewrite Hp in E.
  rewrite andb_false_r in E. discriminate.
Qed.

Lemma trim_end_cons c s :
  trim_end (String c s) = if all_ws (String c s) then "" else String c (trim_end s).
Proof. reflexivity. Qed.

Lemma trim_end_app_plain x c y : plain c = true ->
  trim_end (x ++ String c y) = x ++ String c (trim_end y).
Proof.
  intros Hp. induction x as [|a x IH]; cbn [append].
  - pose proof (all_ws_has_plain "" c y Hp) as A. cbn [append] in A.
    rewrite trim_end_cons, A. reflexivity.
  - rewrite trim_end_cons.
    change (String a (x ++ String c y)) with ((String a x) ++ String c y).
    rewrite all_ws_has_plain by exact Hp. rewrite IH. reflexivity.
Qed.

Lemma trim_end_plain_prefix x y : sforall plain x = true ->
  trim_end (x ++ y) = x ++ trim_end y.
Proof.
  induction x as [|a x IH]; cbn [append sforall]; intros Hx; [reflexivity|].
  apply andb_prop in Hx as [Ha Hx].
  rewrite trim_end_cons.
  pose proof (all_ws_has_plain "" a (x ++ y) Ha) as A. cbn [append] in A.
  rewrite A, IH by exact Hx. reflexivity.
Qed.

Lemma trim_end_plain x : sforall plain x = true -> trim_end x = x.
Proof.
  intros Hx. rewrite <- (append_nil x) at 1.
  rewrite trim_end_plain_prefix by exact Hx. apply append_nil.
Qed.

Lemma trim_plain x : sforall plain x = true -> trim x = x.
Proof.
  intros Hx. unfold trim. destruct x as [|c x']; [reflexivity|].
  simpl in Hx. apply andb_prop in Hx as [Hc Hx'].
  rewrite trim_start_plain by exact Hc. apply trim_end_plain. simpl. rewrite Hc, Hx'. reflexivity.
Qed.

Lemma split_once_app p s1 s2 : no_byte p s1 = true ->
  split_once p (s1 ++ String p s2) = Some (s1, s2).
Proof.
  induction s1 as [|c s1 IH]; simpl; intros Hs.
  - rewrite Ascii.eqb_refl. reflexivity.
  - apply andb_prop in Hs as [Hc Hs]. apply negb_true_iff in Hc. rewrite Hc, IH by exact Hs.
    reflexivity.
Qed.

Lemma split_once_none p s : no_byte p s = true -> split_once p s = None.
Proof.
  induction s as [|c s IH]; simpl; intros Hs; [reflexivity|].
  apply andb_prop in Hs as [Hc Hs]. apply negb_true_iff in Hc. rewrite Hc, IH by exact Hs.
  reflexivity.
Qed.

Lemma cap_keyword kw rest : no_byte " " kw = true ->
  command_and_parameters (kw ++ String " " rest) =
  (trim kw, match rest with EmptyString => None | _ => Some (trim rest) end).
Proof.
  intros Hkw. unfold command_and_parameters. rewrite split_once_app by exact Hkw.
  destruct rest; reflexivity.
Qed.

Lemma cap_no_space s : no_byte " " s = true -> command_and_parameters s = (s, None).
Proof. intros Hs. unfold command_and_parameters. rewrite split_once_none by exact Hs. reflexivity. Qed.

Lemma sapp_assoc a b c : a ++ (b ++ c) = (a ++ b) ++ c.
Proof. induction a; simpl; [reflexivity|]. rewrite IHa. reflexivity. Qed.

Lemma token_plain s : sforall token_byte s = true -> sforall plain s = true.
Proof.
  apply sforall_impl. intros c Hc. unfold token_byte in Hc.
  apply andb_prop in Hc as [Hc _]. exact Hc.
Qed.

Lemma token_no_space s : sforall token_byte s = true -> no_byte " " s = true.
Proof.
  apply sforall_impl. intros c Hc. unfold token_byte in Hc.
  apply andb_prop in Hc as [Hc _]. destruct (plain_facts c Hc) as (_ & _ & _ & E & _).
  rewrite E. reflexivity.
Qed.

Lemma token_no_eq s : sforall token_byte s = true -> no_byte "=" s = true.
Proof.
  apply sforall_impl. intros c Hc. unfold token_byte in Hc.
  apply andb_prop in Hc as [_ Hc].
  destruct (Ascii.eqb_spec c "=") as [->|]; [discriminate | reflexivity].
Qed.

Lemma no_byte_app p x y : no_byte p (x ++ y) = no_byte p x && no_byte p y.
Proof. apply sforall_app. Qed.

Lemma trim_start_space s : trim_start (String " " s) = trim_start s.
Proof. reflexivity. Qed.

(** Trimming keeps a string that starts and ends with printable bytes. *)
Lemma trim_between x m y : x <> "" -> y <> "" ->
  sforall plain x = true -> sforall plain y = true -> trim (x ++ m ++ y) = x ++ m ++ y.
Proof.
  intros Hx Hy Px Py. unfold trim.
  destruct x as [|a x']; [contradiction|].
  cbn in Px. apply andb_prop in Px as [Pa Px'].
  cbn [append]. rewrite trim_start_plain by exact Pa.
  destruct y as [|b y']; [contradiction|].
  cbn in Py. apply andb_prop in Py as [Pb Py'].
  change (String a (x' ++ m ++ String b y')) with (String a x' ++ m ++ String b y').
  rewrite sapp_assoc, trim_end_app_plain by exact Pb.
  rewrite trim_end_plain by exact Py'. rewrite <- sapp_assoc. reflexivity.
Qed.

(** [Request::from] on an [OPTION] line with a remainder. *)
Lemma request_from_OPTION rest : rest <> "" ->
  request_from ("OPTION" ++ String " " rest) =
  Some (let arg := trim rest in
        match split_once "=" arg with
        | Some (k, v) => Request.Option (trim k, Some (trim v))
        | None =>
            match split_once " " arg with
            | Some (k, v) => Request.Option (trim k, Some (trim v))
            | None => Request.Option (trim arg, None)
            end
        end).
Proof.
  intros Hr. unfold request_from.
  rewrite cap_keyword by reflexivity.
  destruct rest as [|c r]; [contradiction|].
  generalize (trim (String c r)). intros t. reflexivity.
Qed.

(** ** C9: round trip of the zero-argument requests *)

Definition zero_arg (r : Request.t) : bool :=
  match r with
  | Request.Bye | Request.Reset | Request.End | Request.Help | Request.Quit
  | Request.Cancel | Request.Nop => true
  | _ => false
  end.

(** C9: for every well-known zero-argument request [K] (BYE, RESET, END,
    HELP, QUIT, CANCEL, NOP), parsing its rendered form gives [K] back:
    [Request::from(K.to_string()) == K]. *)
Theorem request_zero_arg_roundtrip : forall K : Request.t,
  zero_arg K = true -> request_from (request_fmt K) = Some K.
Proof. intros K HK. destruct K; try discriminate HK; reflexivity. Qed.

Lemma request_zero_arg_roundtrip_witness :
  zero_arg Request.Nop = true /\ request_from (request_fmt Request.Nop) = Some Request.Nop.
Proof. split; [reflexivity | apply request_zero_arg_roundtrip; reflexivity]. Defined.

(** ** C7: the [OPTION] argument forms *)

(** C7: for an option name and value made of printable ASCII bytes other
    than [=] (so with no surrounding whitespace), the lines
    ["OPTION name=value"], ["OPTION name value"] and
    ["OPTION name   =   value"] all parse to [Option(name, Some(value))],
    ["OPTION name"] parses to [Option(name, None)], and the bare ["OPTION"]
    parses to [Unknown("OPTION", None)]. *)
Theorem option_argument_forms : forall name value,
  sforall token_byte name = true -> sforall token_byte value = true ->
  name <> "" -> value <> "" ->
  request_from ("OPTION " ++ name ++ "=" ++ value) = Some (Request.Option (name, Some value)) /\
  request_from ("OPTION " ++ name ++ " " ++ value) = Some (Request.Option (name, Some value)) /\
  request_from ("OPTION " ++ name ++ "   =   " ++ value) =
    Some (Request.Option (name, Some value)) /\
  request_from ("OPTION " ++ name) = Some (Request.Option (name, None)) /\
  request_from "OPTION" = Some (Request.Unknown ("OPTION", None)).
Proof.
  intros name value Tn Tv Hn Hv.
  pose proof (token_plain _ Tn) as Pn. pose proof (token_plain _ Tv) as Pv.
  pose proof (token_no_eq _ Tn) as En. pose proof (token_no_eq _ Tv) as Ev.
  pose proof (token_no_space _ Tn) as Sn.
  assert (NE : forall m, name ++ m <> "").
  { intros m E. destruct name; [contradiction | discriminate]. }
  repeat split.
  - change ("OPTION " ++ name ++ "=" ++ value) with ("OPTION" ++ String " " (name ++ "=" ++ value)).
    rewrite request_from_OPTION by apply NE. cbv zeta.
    rewrite trim_between by assumption.
    change ("=" ++ value) with (String "=" value).
    rewrite split_once_app by exact En.
    rewrite (trim_plain name Pn), (trim_plain value Pv). reflexivity.
  - change ("OPTION " ++ name ++ " " ++ value) with ("OPTION" ++ String " " (name ++ " " ++ value)).
    rewrite request_from_OPTION by apply NE. cbv zeta.
    rewrite trim_between by assumption.
    rewrite split_once_none.
    2: { rewrite !no_byte_app, En, Ev. reflexivity. }
    change (" " ++ value) with (String " " value).
    rewrite split_once_app by exact Sn.
    rewrite (trim_plain name Pn), (trim_plain value Pv). reflexivity.
  - change ("OPTION " ++ name ++ "   =   " ++ value)
      with ("OPTION" ++ String " " (name ++ "   =   " ++ value)).
    rewrite request_from_OPTION by apply NE. cbv zeta.
    rewrite trim_between by assumption.
    change ("   =   " ++ value) with ("   " ++ String "=" ("   " ++ value)).
    rewrite sapp_assoc, split_once_app.
    2: { rewrite no_byte_app, En. reflexivity. }
    unfold trim at 1. destruct name as [|a n']; [contradiction|].
    cbn in Pn. apply andb_prop in Pn as [Pa Pn'].
    cbn [append]. rewrite trim_start_plain by exact Pa.
    change (String a (n' ++ "   ")) with (String a n' ++ "   ").
    rewrite trim_end_plain_prefix by (cbn; rewrite Pa, Pn'; reflexivity).
    change (trim_end "   ") with "". rewrite append_nil.
    unfold trim. cbn [append]. rewrite !trim_start_space.
    destruct value as [|b v']; [contradiction|].
    cbn in Pv. apply andb_prop in Pv as [Pb Pv'].
    rewrite trim_start_plain by exact Pb.
    rewrite (trim_end_plain (String b v')) by (cbn; rewrite Pb, Pv'; reflexivity).
    reflexivity.
  - change ("OPTION " ++ name) with ("OPTION" ++ String " " name).
    rewrite request_from_OPTION by exact Hn. cbv zeta.
    rewrite (trim_plain name Pn), split_once_none, split_once_none by assumption.
    rewrite (trim_plain name Pn). reflexivity.
Qed.

Lemma option_argument_forms_witness :
  request_from "OPTION name=value" = Some (Request.Option ("name", Some "value")) /\
  request_from "OPTION name value" = Some (Request.Option ("name", Some "value")) /\
  request_from "OPTION name   =   value" = Some (Request.Option ("name", Some "value")) /\
  request_from "OPTION name" = Some (Request.Option ("name", None)) /\
  request_from "OPTION" = Some (Request.Unknown ("OPTION", None)).
Proof.
  apply (option_argument_forms "name" "value");
    [reflexivity | reflexivity | discriminate | discriminate].
Defined.

(** ** C8: comment lines *)

Lemma valid_head c s : valid_utf8 (String c s) = true -> is_cont c = false.
Proof.
  simpl. intros Hv. unfold is_cont.
  destruct (byte c <? 128)%N eqn:L.
  - apply N.ltb_lt in L. rewrite (proj2 (N.leb_gt 128 (byte c))) by lia. reflexivity.
  - destruct (in_range 194 223 c) eqn:R1.
    + unfold in_range in R1. apply andb_prop in R1 as [R1 _]. apply N.leb_le in R1.
      rewrite (proj2 (N.leb_gt (byte c) 191)) by lia. apply andb_false_r.
    + destruct (in_range 224 244 c) eqn:R2; [|discriminate].
      unfold in_range in R2. apply andb_prop in R2 as [R2 _]. apply N.leb_le in R2.
      rewrite (proj2 (N.leb_gt (byte c) 191)) by lia. apply andb_false_r.
Qed.

Lemma trim_end_head a c t : trim_end a = String c t -> exists t', a = String c t'.
Proof.
  destruct a as [|c' a']; [discriminate|]. rewrite trim_end_cons.
  destruct (all_ws (String c' a')); [discriminate|].
  intros E. injection E as <- _. exists a'. reflexivity.
Qed.

Lemma split_once_some p s a b : split_once p s = Some (a, b) -> s = a ++ String p b.
Proof.
  revert a b. induction s as [|c s IH]; simpl; intros a b E; [discriminate|].
  destruct (Ascii.eqb_spec c p) as [->|].
  - injection E as <- <-. reflexivity.
  - destruct (split_once p s) as [[a' b']|] eqn:E'; [|discriminate].
    injection E as <- <-. rewrite (IH a' b' eq_refl). reflexivity.
Qed.

Lemma trim_hash a : trim (String "#" a) = String "#" (trim_end a).
Proof.
  unfold trim. rewrite trim_start_plain by reflexivity.
  pose proof (all_ws_has_plain "" "#" a eq_refl) as A. cbn [append] in A.
  rewrite trim_end_cons, A. reflexivity.
Qed.

Lemma boundary_hash rest : valid_utf8 rest = true -> boundary1 (String "#" rest) = true.
Proof.
  destruct rest as [|c r]; [reflexivity|]. intros Hv. simpl.
  rewrite (valid_head c r Hv). reflexivity.
Qed.

Lemma comment_keyword rest : valid_utf8 rest = true ->
  slice_to1 (fst (command_and_parameters (String "#" rest))) = Some "#".
Proof.
  intros Hv. unfold command_and_parameters.
  assert (Hs : split_once " " (String "#" rest) =
               match split_once " " rest with
               | Some (a, b) => Some (String "#" a, b)
               | None => None
               end) by reflexivity.
  rewrite Hs. destruct (split_once " " rest) as [[a b]|] eqn:E.
  - apply split_once_some in E.
    assert (Ka : slice_to1 (trim (String "#" a)) = Some "#").
    { rewrite trim_hash. unfold slice_to1.
      destruct (trim_end a) as [|c t] eqn:Ea; [reflexivity|].
      apply trim_end_head in Ea as [t' ->]. subst rest.
      cbn [boundary1]. cbn [append] in Hv. rewrite (valid_head _ _ Hv). reflexivity. }
    destruct b; exact Ka.
  - unfold slice_to1. cbn [fst]. rewrite boundary_hash by exact Hv. reflexivity.
Qed.

(** C8: on a request line that starts with [#], only that first [#] is the
    comment marker: the comment text is everything after it (further [#]
    characters included), trimmed, and absent when the trimmed text is
    empty.  In particular ["###text"] parses to [Comment(Some("##text"))]. *)
Theorem comment_request_parse :
  (forall rest, valid_utf8 rest = true ->
     request_from (String "#" rest) =
     Some (Request.Comment (if String.eqb (trim rest) "" then None else Some (trim rest)))) /\
  request_from "###text" = Some (Request.Comment (Some "##text")).
Proof.
  split; [|reflexivity].
  intros rest Hv. unfold request_from. cbv zeta.
  rewrite comment_keyword by exact Hv. cbn [Command.as_ref String.eqb Ascii.eqb Bool.eqb].
  unfold slice_from1. rewrite boundary_hash by exact Hv.
  destruct (trim rest); reflexivity.
Qed.

Lemma comment_request_parse_witness :
  valid_utf8 "##text" = true /\
  request_from (String "#" "##text") = Some (Request.Comment (Some "##text")).
Proof.
  split; [reflexivity|].
  rewrite (proj1 comment_request_parse "##text" eq_refl). reflexivity.
Defined.

(** ** [ERR] responses: C3 and C4 *)

(** [Response::from] on an [ERR] line with a remainder. *)
Lemma response_from_ERR rem : rem <> "" ->
  response_from ("ERR" ++ String " " rem) =
  Some (let (e, d) := err_token_split (trim rem) in Response.Err (decode_error e, d)).
Proof.
  intros Hr. unfold response_from.
  rewrite cap_keyword by reflexivity.
  destruct rem as [|c r]; [contradiction|].
  generalize (trim (String c r)). intros t. reflexivity.
Qed.

Lemma err_token_split_token e : no_byte " " e = true -> err_token_split e = (e, None).
Proof. intros He. unfold err_token_split. rewrite split_once_none by exact He. reflexivity. Qed.

Lemma err_token_split_desc e v : no_byte " " e = true -> v <> "" ->
  err_token_split (e ++ String " " v) = (e, Some v).
Proof.
  intros He Hv. unfold err_token_split. rewrite split_once_app by exact He.
  destruct v; [contradiction | reflexivity].
Qed.

Lemma decode_error_numeric e n : parse_u32 e = Some n ->
  decode_error e = match GpgErrorCode.from_code n with
                   | Some g => ResponseErr.Gpg g
                   | None => ResponseErr.Custom (Custom.mk n)
                   end.
Proof.
  intros He. unfold decode_error, GpgErrorCode.try_from, Custom.try_from. rewrite He.
  destruct (GpgErrorCode.from_code n); reflexivity.
Qed.

Lemma decode_error_non_numeric e : parse_u32 e = None ->
  decode_error e = ResponseErr.Gpg GpgErrorCode.UnknownErrno.
Proof.
  intros He. unfold decode_error, GpgErrorCode.try_from, Custom.try_from. rewrite He.
  reflexivity.
Qed.

(** C4: the bare line ["ERR"] parses to [Custom(("ERR", None))]; for a
    remainder whose trimmed text is a code token [e] (no space), optionally
    followed by one space and a non-empty description [v], where [e] is a
    well-formed integer [n]: the result is [Err] with the known code when [n]
    is in the table of well-known codes and the custom code carrying [n]
    otherwise, and with description [None], respectively [Some v]. *)
Theorem err_response_decoding :
  response_from "ERR" = Some (Response.Custom ("ERR", None)) /\
  (forall rem e n, trim rem = e -> no_byte " " e = true -> parse_u32 e = Some n ->
     response_from ("ERR " ++ rem) =
     Some (Response.Err (match GpgErrorCode.from_code n with
                         | Some g => ResponseErr.Gpg g
                         | None => ResponseErr.Custom (Custom.mk n)
                         end, None))) /\
  (forall rem e v n, trim rem = e ++ " " ++ v -> no_byte " " e = true -> v <> "" ->
     parse_u32 e = Some n ->
     response_from ("ERR " ++ rem) =
     Some (Response.Err (match GpgErrorCode.from_code n with
                         | Some g => ResponseErr.Gpg g
                         | None => ResponseErr.Custom (Custom.mk n)
                         end, Some v))).
Proof.
  split; [reflexivity|]. split.
  - intros rem e n Ht He Hn.
    assert (Hr : rem <> "") by (intros ->; cbv in Ht; subst e; discriminate).
    change ("ERR " ++ rem) with ("ERR" ++ String " " rem).
    rewrite response_from_ERR by exact Hr. rewrite Ht, err_token_split_token by exact He.
    rewrite (decode_error_numeric e n Hn). reflexivity.
  - intros rem e v n Ht He Hv Hn.
    assert (Hr : rem <> "") by (intros ->; cbv in Ht; destruct e; discriminate).
    change ("ERR " ++ rem) with ("ERR" ++ String " " rem).
    rewrite response_from_ERR by exact Hr. rewrite Ht.
    change (" " ++ v) with (String " " v).
    rewrite err_token_split_desc by assumption.
    rewrite (decode_error_numeric e n Hn). reflexivity.
Qed.

Lemma err_response_decoding_witness :
  response_from "ERR 16383 with description" =
    Some (Response.Err (ResponseErr.Gpg GpgErrorCode.Eof, Some "with description")) /\
  response_from "ERR 32909" =
    Some (Response.Err (ResponseErr.Custom (Custom.mk 32909), None)).
Proof.
  split.
  - apply (proj2 (proj2 err_response_decoding) "16383 with description" "16383"
             "with description" 16383%N); [reflexivity | reflexivity | discriminate | reflexivity].
  - apply (proj1 (proj2 err_response_decoding) "32909" "32909" 32909%N);
      reflexivity.
Defined.

(** C3 (counterexample): an [ERR] line whose code token is not numeric
    still parses to the [Err] variant, with the unknown-errno code. *)
Lemma err_non_numeric_counterexample :
  response_from "ERR abc" =
    Some (Response.Err (ResponseErr.Gpg GpgErrorCode.UnknownErrno, None)) /\
  response_from "ERR abc some description" =
    Some (Response.Err (ResponseErr.Gpg GpgErrorCode.UnknownErrno, Some "some description")).
Proof. split; vm_compute; reflexivity. Qed.

(** C3 (amended): for every [ERR] line with a non-empty remainder whose
    code token [e] (the trimmed remainder up to its first space) is not
    numeric, the parser yields the [Err] variant carrying the well-known
    unknown-errno code and the line's description [d], not [Custom]. *)
Theorem err_non_numeric_code : forall rem e d,
  rem <> "" -> err_token_split (trim rem) = (e, d) -> parse_u32 e = None ->
  response_from ("ERR " ++ rem) =
  Some (Response.Err (ResponseErr.Gpg GpgErrorCode.UnknownErrno, d)).
Proof.
  intros rem e d Hr Hs He.
  change ("ERR " ++ rem) with ("ERR" ++ String " " rem).
  rewrite response_from_ERR by exact Hr. rewrite Hs, decode_error_non_numeric by exact He.
  reflexivity.
Qed.

Lemma err_non_numeric_code_witness :
  response_from "ERR abc desc" =
    Some (Response.Err (ResponseErr.Gpg GpgErrorCode.UnknownErrno, Some "desc")).
Proof.
  apply (err_non_numeric_code "abc desc" "abc" (Some "desc"));
    [discriminate | reflexivity | reflexivity].
Defined.

(** ** C2: totality of the parsers *)

Lemma try_from_some s c : Command.try_from s = Some c -> s = Command.as_ref c.
Proof.
  unfold Command.try_from. intros E. apply find_some in E as [_ E].
  apply String.eqb_eq in E. symmetry. exact E.
Qed.

Definition request_keyword (kw : string) : bool :=
  existsb (String.eqb kw) ["BYE"; "RESET"; "END"; "HELP"; "QUIT"; "OPTION"; "CANCEL"; "NOP"; "D"].

Definition response_keyword (kw : string) : bool :=
  existsb (String.eqb kw) ["OK"; "ERR"; "S"; "INQUIRE"; "D"].

(** C2 (counterexample): a line starting with a multi-byte character
    (U+00E9) makes both parsers panic at [command_and_parameters.0[..1]],
    which slices inside the character; and an [ERR] line whose code token is
    not numeric parses to [Err], not to [Custom]. *)
Lemma parse_total_counterexample :
  valid_utf8 e_acute = true /\
  request_from e_acute = None /\ response_from e_acute = None /\
  response_from "ERR abc" =
    Some (Response.Err (ResponseErr.Gpg GpgErrorCode.UnknownErrno, None)).
Proof. vm_compute. repeat split. Qed.

(** C2 (amended): parsing is a pure function of the line.  Whenever it
    returns, on a line whose keyword [kw] (first space-delimited word,
    trimmed) is not a comment marker: a request with an unrecognized keyword,
    or with [OPTION] or [D] and no argument, is [Unknown((kw, params))]; a
    response with an unrecognized keyword, or with [ERR], [S], [INQUIRE] or
    [D] and no remainder, or with [S] or [INQUIRE] and a single-word
    remainder, is [Custom((kw, params))]; an [ERR] response with a remainder
    is always the [Err] variant. *)
Theorem parse_degrades : forall input kw params,
  command_and_parameters input = (kw, params) -> slice_to1 kw <> Some "#" ->
  (forall r, request_from input = Some r ->
     request_keyword kw = false \/ ((kw = "OPTION" \/ kw = "D") /\ params = None) ->
     r = Request.Unknown (kw, params)) /\
  (forall r, response_from input = Some r ->
     response_keyword kw = false
     \/ ((kw = "ERR" \/ kw = "S" \/ kw = "INQUIRE" \/ kw = "D") /\ params = None) ->
     r = Response.Custom (kw, params)) /\
  (forall r p, response_from input = Some r -> kw = "S" \/ kw = "INQUIRE" ->
     params = Some p -> no_byte " " p = true -> r = Response.Custom (kw, params)) /\
  (forall r p, response_from input = Some r -> kw = "ERR" -> params = Some p ->
     exists e d, r = Response.Err (e, d)).
Proof.
  intros input kw params Ecp Hkw.
  assert (Hh : forall h, slice_to1 kw = Some h -> String.eqb h "#" = false).
  { intros h Eh. apply String.eqb_neq. intros ->. exact (Hkw Eh). }
  unfold request_from, response_from. cbv zeta. rewrite Ecp. cbn [fst snd].
  destruct (slice_to1 kw) as [h|]; [|repeat split; intros; discriminate].
  change (Command.as_ref Command.Comment) with "#".
  rewrite (Hh h eq_refl).
  destruct (Command.try_from kw) as [c|] eqn:T.
  - apply try_from_some in T. subst kw.
    repeat split.
    + intros r E Hc. injection E as <-.
      destruct c, params; cbn in Hc; try reflexivity;
        destruct Hc as [Hc|[[Hc|Hc] Hp]]; discriminate.
    + intros r E Hc. injection E as <-.
      destruct c, params; cbn in Hc; try reflexivity;
        destruct Hc as [Hc|[[Hc|[Hc|[Hc|Hc]]] Hp]]; discriminate.
    + intros r p E Hc -> Hp. injection E as <-.
      destruct Hc as [Hc|Hc]; destruct c; try discriminate Hc;
        cbn; rewrite split_once_none by exact Hp; reflexivity.
    + intros r p E Hc ->. injection E as <-.
      destruct c; try discriminate Hc. cbn.
      destruct (err_token_split p) as [e d]. exists (decode_error e), d. reflexivity.
  - repeat split.
    + intros r E _. injection E as <-. reflexivity.
    + intros r E _. injection E as <-. reflexivity.
    + intros r p E _ _ _. injection E as <-. reflexivity.
    + intros r p E Hc. subst kw. discriminate T.
Qed.

Lemma parse_degrades_witness :
  command_and_parameters "FOO bar" = ("FOO", Some "bar") /\ slice_to1 "FOO" <> Some "#" /\
  request_from "FOO bar" = Some (Request.Unknown ("FOO", Some "bar")).
Proof.
  split; [reflexivity|]. split; [discriminate|].
  destruct (parse_degrades "FOO bar" "FOO" (Some "bar") eq_refl ltac:(discriminate))
    as (Hreq & _ & _ & _).
  destruct (request_from "FOO bar") as [r|] eqn:E.
  - rewrite (Hreq r eq_refl (or_introl eq_refl)). reflexivity.
  - vm_compute in E. discriminate E.
Defined.

(** ** C10: the two codecs *)

(** C10: the lib.rs parsers depart from the request.rs/response.rs ones
    on two inputs the dispatcher can receive.  On ["OPTION a = b"] lib.rs
    keeps the spaces around the option name and value, which its own
    documentation of [Request::Option] says are to be ignored and which
    request.rs trims; on ["#foo"] lib.rs drops the comment text, which
    request.rs and response.rs keep. *)
Lemma codecs_divergence :
  lib_request_from "#foo" = Some (Request.Comment None) /\
  request_from "#foo" = Some (Request.Comment (Some "foo")) /\
  lib_request_from "OPTION a = b" = Some (Request.Option ("a ", Some " b")) /\
  request_from "OPTION a = b" = Some (Request.Option ("a", Some "b")) /\
  lib_response_from "#foo" = Some (LibResponse.Comment None) /\
  response_from "#foo" = Some (Response.Comment (Some "foo")).
Proof. vm_compute. repeat split. Qed.

(** ** The dispatcher: C5, C6 and C1 *)

Lemma after_write_stop {H : Type} wfail (h : H) w s o h' w' :
  after_write h (writeln wfail w s) = Stop o h' w' ->
  o = ReturnWriteErr /\ attempts w' = Datatypes.S (attempts w) /\ wfail (attempts w) = true.
Proof.
  unfold after_write, writeln. destruct (wfail (attempts w)) eqn:F; intros E.
  - injection E as <- _ <-. auto.
  - discriminate E.
Qed.

Lemma write_comments_attempts wfail w v :
  attempts w <= attempts (write_comments wfail w v).
Proof.
  revert w. induction v as [|s v IH]; intros w; simpl; [lia|].
  specialize (IH (snd (writeln wfail w (response_fmt (Response.Comment (Some s)))))).
  unfold writeln in IH at 1. destruct (wfail (attempts w)); simpl in IH; lia.
Qed.

Lemma serve_cons {H : Type} `{Handler H} wfail (h : H) w item r :
  serve wfail h w (item :: r) =
  match handle_line wfail h w item with
  | Continue h' w' => serve wfail h' w' r
  | Stop o h' w' => (o, h', w')
  end.
Proof. reflexivity. Qed.

Definition too_large_line : string :=
  response_fmt (Response.Err (ResponseErr.Gpg GpgErrorCode.TooLarge, None)).

(** C5 (counterexample): a line of 1001 characters that are all spaces is
    trimmed to the empty line and ignored (nothing is written), and a line
    of 1000 two-byte characters (2000 bytes) is rejected as too large. *)
Lemma line_length_counterexample :
  String.length (repeat_str 1001 " ") = 1001 /\
  handle_line never_fail tt empty_writer (Line (repeat_str 1001 " ")) =
    Continue tt empty_writer /\
  valid_utf8 (repeat_str 1000 e_acute) = true /\
  handle_line never_fail tt empty_writer (Line (repeat_str 1000 e_acute)) =
    Continue tt (mkWriter 1 [too_large_line]).
Proof. vm_compute. repeat split. Qed.

(** C5 (amended): the bound applies to the trimmed line and counts bytes.
    A non-empty trimmed line of at most 1000 bytes is parsed and dispatched
    as usual; a trimmed line of more than 1000 bytes makes the dispatcher
    write [Err] with the well-known "too large" code and no description,
    the line is dropped without being parsed or shown to the handler, and
    the loop goes on with the next line. *)
Theorem line_length_limit : forall (wfail : nat -> bool) (H : Type) (HH : Handler H)
    (h : H) (w : writer) (line : string) (r : list io_item),
  trim line <> "" ->
  (String.length (trim line) <= 1000 ->
     handle_line wfail h w (Line line) =
     match request_from (trim line) with
     | None => Stop Panic h w
     | Some req => dispatch wfail h w req
     end) /\
  (1000 < String.length (trim line) -> wfail (attempts w) = false ->
     serve wfail h w (Line line :: r) =
     serve wfail h (mkWriter (Datatypes.S (attempts w)) (written w ++ [too_large_line])%list) r).
Proof.
  intros wfail H HH h w line r Hne.
  assert (E : String.eqb (trim line) "" = false) by (apply String.eqb_neq; exact Hne).
  split.
  - intros Hle. unfold handle_line. cbv zeta. rewrite E.
    rewrite (proj2 (Nat.ltb_ge 1000 _) Hle). reflexivity.
  - intros Hgt Hw. rewrite serve_cons. unfold handle_line. cbv zeta. rewrite E.
    rewrite (proj2 (Nat.ltb_lt 1000 _) Hgt).
    unfold after_write, writeln. rewrite Hw. reflexivity.
Qed.

Lemma line_length_limit_witness :
  serve never_fail tt empty_writer [Line (repeat_str 1001 "A")] =
    (ReturnOk, tt, mkWriter 1 [too_large_line]).
Proof.
  rewrite (proj2 (line_length_limit never_fail unit test_handler_inst tt empty_writer
                    (repeat_str 1001 "A") [] ltac:(vm_compute; discriminate))
                 ltac:(vm_compute; lia) eq_refl).
  reflexivity.
Defined.

(** C6: with any handler and any output sink: after [NOP] exactly one
    [OK] line is written and the loop goes on; [QUIT] writes nothing and
    ends the session successfully; a blank line writes nothing and the loop
    goes on; [HELP], when the handler lists ["FOO"; "BAR"], writes the two
    comment lines [# FOO] and [# BAR] and then one [OK] line, a failed
    comment write being skipped rather than ending the session. *)
Theorem end_to_end_requests : forall (wfail : nat -> bool) (H : Type) (HH : Handler H)
    (h : H) (w : writer) (r : list io_item),
  (wfail (attempts w) = false ->
     serve wfail h w (Line "NOP" :: r) =
     serve wfail h (mkWriter (Datatypes.S (attempts w)) (written w ++ ["OK"])%list) r) /\
  serve wfail h w (Line "QUIT" :: r) = (ReturnOk, h, w) /\
  (forall l, trim l = "" -> serve wfail h w (Line l :: r) = serve wfail h w r) /\
  (forall h', help h = (h', Some ["FOO"; "BAR"]) -> wfail (2 + attempts w) = false ->
     serve wfail h w (Line "HELP" :: r) =
     serve wfail h' (mkWriter (3 + attempts w)
                       (written w ++ (if wfail (attempts w) then [] else ["# FOO"])
                          ++ (if wfail (1 + attempts w) then [] else ["# BAR"])
                          ++ ["OK"])%list) r).
Proof.
  intros wfail H HH h w r. repeat split.
  - intros Hw. rewrite serve_cons. cbn -[serve writeln].
    unfold writeln. rewrite Hw. reflexivity.
  - intros l Hl. rewrite serve_cons. unfold handle_line. cbv zeta. rewrite Hl. reflexivity.
  - intros h' Hh Hw. rewrite serve_cons. cbn -[serve writeln help].
    rewrite Hh. cbn -[serve writeln].
    unfold writeln. cbn in Hw.
    destruct (wfail (attempts w)) eqn:F0; cbn [attempts written snd];
      destruct (wfail (Datatypes.S (attempts w))) eqn:F1; cbn [attempts written snd];
      rewrite Hw; cbn [after_write];
      rewrite ?app_nil_r, <- ?app_assoc; reflexivity.
Qed.

Lemma end_to_end_requests_witness :
  serve never_fail tt empty_writer [Line "HELP"] =
    (ReturnOk, tt, mkWriter 3 ["# FOO"; "# BAR"; "OK"]).
Proof.
  rewrite (proj2 (proj2 (proj2 (end_to_end_requests never_fail unit test_handler_inst
                                   tt empty_writer []))) tt eq_refl eq_refl).
  reflexivity.
Defined.

(** ** Further properties of the codec and the dispatcher *)

Lemma parse_digits_acc u p :
  parse_digits (NilEmpty.string_of_uint u) (Npos p) = Some (Npos (Pos.of_uint_acc u p)).
Proof.
  revert p. induction u; intros p; [reflexivity|..]; cbn [Pos.of_uint_acc]; rewrite <- IHu;
    match goal with |- _ = parse_digits _ (N.pos ?x) => set (q := x) end;
    simpl; f_equal; subst q; lia.
Qed.

Lemma parse_digits_uint u :
  parse_digits (NilEmpty.string_of_uint u) 0 = Some (Pos.of_uint u).
Proof.
  induction u; simpl; try exact IHu; try reflexivity; apply parse_digits_acc.
Qed.

Lemma string_of_uint_plain u : sforall plain (NilEmpty.string_of_uint u) = true.
Proof. induction u; simpl; try rewrite IHu; reflexivity. Qed.

Lemma N_to_string_parse n : parse_digits (N_to_string n) 0 = Some n.
Proof.
  unfold N_to_string. rewrite parse_digits_uint.
  change (Pos.of_uint (N.to_uint n)) with (N.of_uint (N.to_uint n)).
  rewrite DecimalN.Unsigned.of_to. reflexivity.
Qed.

Lemma N_to_string_nonempty n : N_to_string n <> "".
Proof.
  intros E. pose proof (N_to_string_parse n) as P. rewrite E in P.
  injection P as <-. discriminate E.
Qed.

Lemma parse_u32_N_to_string n : (n < 4294967296)%N -> parse_u32 (N_to_string n) = Some n.
Proof.
  intros Hn. unfold parse_u32. pose proof (N_to_string_nonempty n) as Ne.
  pose proof (N_to_string_parse n) as P.
  destruct (N_to_string n) as [|c s]; [contradiction|].
  rewrite P. apply N.ltb_lt in Hn. rewrite Hn. reflexivity.
Qed.

Lemma trim_start_len : forall n s, String.length s <= n ->
  trim_start s = s \/ String.length (trim_start s) < String.length s.
Proof.
  induction n as [|n IH]; intros s Hl.
  - destruct s; [left; reflexivity | simpl in Hl; lia].
  - destruct s as [|c s1]; [left; reflexivity|]. simpl in Hl. cbn [trim_start].
    destruct (ascii_ws c).
    + right. destruct (IH s1 ltac:(lia)) as [->|L]; simpl; lia.
    + destruct s1 as [|d s2]; [left; reflexivity|].
      destruct (ws2 c d).
      * right. simpl in Hl. destruct (IH s2 ltac:(lia)) as [->|L]; simpl; lia.
      * destruct s2 as [|e s3]; [left; reflexivity|].
        destruct (ws3 c d e); [|left; reflexivity].
        right. simpl in Hl. destruct (IH s3 ltac:(lia)) as [->|L]; simpl; lia.
Qed.

Lemma trim_end_len s : String.length (trim_end s) <= String.length s.
Proof.
  induction s as [|c s IH]; [reflexivity|]. rewrite trim_end_cons.
  destruct (all_ws (String c s)); simpl; lia.
Qed.

Lemma all_ws_trim_start : forall n s, String.length s <= n -> all_ws s = true -> trim_start s = "".
Proof.
  induction n as [|n IH]; intros s Hl Hw.
  - destruct s; [reflexivity | simpl in Hl; lia].
  - destruct s as [|c s1]; [reflexivity|]. simpl in Hl. cbn [trim_start]. cbn [all_ws] in Hw.
    destruct (ascii_ws c); [apply IH; [lia | exact Hw]|].
    destruct s1 as [|d s2]; [discriminate|].
    destruct (ws2 c d); [apply IH; [simpl in Hl; lia | exact Hw]|].
    destruct s2 as [|e s3]; [discriminate|].
    apply andb_prop in Hw as [W3 Hw]. rewrite W3.
    apply IH; [simpl in Hl; lia | exact Hw].
Qed.

Lemma clean_facts s : clean s = true ->
  s <> "" /\ trim_start s = s /\ trim_end s = s /\ all_ws s = false.
Proof.
  unfold clean. intros C. apply andb_prop in C as [Ne Ht].
  apply negb_true_iff, String.eqb_neq in Ne. apply String.eqb_eq in Ht.
  unfold trim in Ht.
  assert (Ts : trim_start s = s).
  { destruct (trim_start_len _ s (le_n _)) as [E|L]; [exact E|].
    pose proof (trim_end_len (trim_start s)) as L2. rewrite Ht in L2. lia. }
  rewrite Ts in Ht. repeat split; try assumption.
  destruct (all_ws s) eqn:W; [|reflexivity].
  rewrite (all_ws_trim_start _ s (le_n _) W) in Ts. symmetry in Ts. contradiction.
Qed.

Lemma trim_clean s : clean s = true -> trim s = s.
Proof. intros C. destruct (clean_facts s C) as (_ & Ts & Te & _). unfold trim. rewrite Ts. exact Te. Qed.

Lemma trim_space_clean v : clean v = true -> trim (String " " v) = v.
Proof.
  intros C. unfold trim. rewrite trim_start_space. apply trim_clean, C.
Qed.

Lemma trim_end_space_clean v : clean v = true -> trim_end (String " " v) = String " " v.
Proof.
  intros C. destruct (clean_facts v C) as (_ & _ & Te & W).
  rewrite trim_end_cons. cbn [all_ws]. replace (ascii_ws " ") with true by reflexivity.
  rewrite W, Te. reflexivity.
Qed.

Lemma trim_plain_space k v : sforall plain k = true -> k <> "" -> clean v = true ->
  trim (k ++ String " " v) = k ++ String " " v.
Proof.
  intros Pk Nk C. unfold trim. destruct k as [|a k']; [contradiction|].
  pose proof Pk as Pk'. cbn [sforall] in Pk'. apply andb_prop in Pk' as [Pa _].
  cbn [append]. rewrite trim_start_plain by exact Pa.
  change (String a (k' ++ String " " v)) with (String a k' ++ String " " v).
  rewrite trim_end_plain_prefix by exact Pk. rewrite trim_end_space_clean by exact C.
  reflexivity.
Qed.

Lemma cap_keyword_ne kw rest : no_byte " " kw = true -> rest <> "" ->
  command_and_parameters (kw ++ " " ++ rest) = (trim kw, Some (trim rest)).
Proof.
  intros Hkw Hr. unfold command_and_parameters.
  change (kw ++ " " ++ rest) with (kw ++ String " " rest).
  rewrite split_once_app by exact Hkw. destruct rest; [contradiction | reflexivity].
Qed.

Lemma plain_no_space s : sforall plain s = true -> no_byte " " s = true.
Proof.
  apply sforall_impl. intros c Hc. destruct (plain_facts c Hc) as (_ & _ & _ & E & _).
  rewrite E. reflexivity.
Qed.

Lemma head_slice c : sforall plain c = true -> c <> "" -> String.get 0 c <> Some "#"%char ->
  exists h, slice_to1 c = Some h /\ String.eqb h "#" = false.
Proof.
  intros Pc Nc Gc. destruct c as [|a c']; [contradiction|].
  cbn [sforall] in Pc. apply andb_prop in Pc as [Pa Pc'].
  exists (String a ""). split.
  - unfold slice_to1. destruct c' as [|b c'']; [reflexivity|].
    cbn [sforall] in Pc'. apply andb_prop in Pc' as [Pb _].
    destruct (plain_facts b Pb) as (_ & _ & _ & _ & E). cbn [boundary1]. rewrite E. reflexivity.
  - apply String.eqb_neq. intros E. injection E as ->. apply Gc. reflexivity.
Qed.

(** Round trip of request.rs's [Display] and [From] for data and comment
    requests: for a text [v] that is non-empty and has no surrounding
    whitespace, ["D v"] parses back to [D(v)] and ["# v"] to
    [Comment(Some(v))]; the bare ["#"] parses back to [Comment(None)]. *)
Theorem request_data_comment_roundtrip : forall v, clean v = true ->
  request_from (request_fmt (Request.D v)) = Some (Request.D v) /\
  request_from (request_fmt (Request.Comment (Some v))) = Some (Request.Comment (Some v)) /\
  request_from (request_fmt (Request.Comment None)) = Some (Request.Comment None).
Proof.
  intros v C. pose proof (trim_space_clean v C) as Tsp. pose proof (trim_clean v C) as T.
  destruct (clean_facts v C) as (Ne & _).
  split; [|split; [|reflexivity]].
  - unfold request_fmt, request_from. cbn [Command.as_ref].
    rewrite cap_keyword_ne by (reflexivity || exact Ne). rewrite T. reflexivity.
  - unfold request_fmt, request_from. cbn [Command.as_ref].
    rewrite cap_keyword_ne by (reflexivity || exact Ne). rewrite T.
    cbn -[trim]. rewrite Tsp. destruct v; [contradiction | reflexivity].
Qed.

Lemma request_data_comment_roundtrip_witness :
  clean "with data" = true /\
  request_from (request_fmt (Request.D "with data")) = Some (Request.D "with data").
Proof.
  split; [reflexivity|].
  exact (proj1 (request_data_comment_roundtrip "with data" eq_refl)).
Defined.

(** Round trip of an unrecognised command: a command word of printable
    ASCII that is not a keyword and does not start with [#], with an
    optional parameter text that is non-empty and has no surrounding
    whitespace, renders (["c"] or ["c p"]) and parses back to the same
    [Request::Unknown] (request.rs) and the same [Response::Custom]
    (response.rs). *)
Theorem unknown_custom_roundtrip : forall c p,
  sforall plain c = true -> c <> "" -> String.get 0 c <> Some "#"%char ->
  Command.try_from c = None -> clean_opt p = true ->
  request_from (request_fmt (Request.Unknown (c, p))) = Some (Request.Unknown (c, p)) /\
  response_from (response_fmt (Response.Custom (c, p))) = Some (Response.Custom (c, p)).
Proof.
  intros c p Pc Nc Gc Tc Cp.
  destruct (head_slice c Pc Nc Gc) as (h & Sh & Eh).
  assert (CP : command_and_parameters (match p with None => c | Some q => c ++ " " ++ q end)
               = (c, p)).
  { destruct p as [q|].
    - pose proof (clean_facts q Cp) as (Nq & _).
      rewrite cap_keyword_ne by (apply plain_no_space, Pc || exact Nq).
      rewrite trim_plain by exact Pc. rewrite trim_clean by exact Cp. reflexivity.
    - apply cap_no_space, plain_no_space, Pc. }
  split.
  - replace (request_fmt (Request.Unknown (c, p)))
      with (match p with None => c | Some q => c ++ " " ++ q end) by (destruct p; reflexivity).
    unfold request_from. rewrite CP. cbn [fst snd Command.as_ref]. rewrite Sh, Eh, Tc.
    reflexivity.
  - replace (response_fmt (Response.Custom (c, p)))
      with (match p with None => c | Some q => c ++ " " ++ q end) by (destruct p; reflexivity).
    unfold response_from. rewrite CP. cbn [fst snd Command.as_ref]. rewrite Sh, Eh, Tc.
    reflexivity.
Qed.

Lemma unknown_custom_roundtrip_witness :
  Command.try_from "FOO" = None /\
  request_from (request_fmt (Request.Unknown ("FOO", Some "bar baz"))) =
    Some (Request.Unknown ("FOO", Some "bar baz")).
Proof.
  split; [reflexivity|].
  refine (proj1 (unknown_custom_roundtrip "FOO" (Some "bar baz") eq_refl _ _ eq_refl eq_refl));
    discriminate.
Defined.

(** Round trip of response.rs's [Display] and [From] for [OK], [D] and
    comment responses, with a text that is non-empty and has no surrounding
    whitespace, and for the bare [OK] and [#]. *)
Theorem response_ok_data_comment_roundtrip : forall v, clean v = true ->
  response_from (response_fmt (Response.Ok (Some v))) = Some (Response.Ok (Some v)) /\
  response_from (response_fmt (Response.D v)) = Some (Response.D v) /\
  response_from (response_fmt (Response.Comment (Some v))) = Some (Response.Comment (Some v)) /\
  response_from (response_fmt (Response.Ok None)) = Some (Response.Ok None) /\
  response_from (response_fmt (Response.Comment None)) = Some (Response.Comment None).
Proof.
  intros v C. pose proof (trim_space_clean v C) as Tsp. pose proof (trim_clean v C) as T.
  destruct (clean_facts v C) as (Ne & _).
  split; [|split; [|split; [|split; reflexivity]]];
    unfold response_fmt, response_from; cbn [Command.as_ref];
    rewrite cap_keyword_ne by (reflexivity || exact Ne); rewrite T; [reflexivity | reflexivity|].
  cbn -[trim]. rewrite Tsp. destruct v; [contradiction | reflexivity].
Qed.

Lemma response_ok_data_comment_roundtrip_witness :
  clean "some data" = true /\
  response_from (response_fmt (Response.D "some data")) = Some (Response.D "some data").
Proof.
  split; [reflexivity|].
  exact (proj1 (proj2 (response_ok_data_comment_roundtrip "some data" eq_refl))).
Defined.

Lemma trim_plain_space' k v : sforall plain k = true -> k <> "" -> clean v = true ->
  trim (k ++ " " ++ v) = k ++ " " ++ v.
Proof. apply trim_plain_space. Qed.

(** Round trip of status and inquiry responses: with a keyword of printable
    ASCII (no spaces) and a value that is non-empty and has no surrounding
    whitespace (spaces inside it are allowed), ["S k v"] and
    ["INQUIRE k v"] parse back to [S((k, v))] and [Inquire((k, v))]. *)
Theorem response_status_inquire_roundtrip : forall k v,
  sforall plain k = true -> k <> "" -> clean v = true ->
  response_from (response_fmt (Response.S (k, v))) = Some (Response.S (k, v)) /\
  response_from (response_fmt (Response.Inquire (k, v))) = Some (Response.Inquire (k, v)).
Proof.
  intros k v Pk Nk C. destruct (clean_facts v C) as (Nv & _).
  assert (Nr : k ++ " " ++ v <> "") by (destruct k; [contradiction | discriminate]).
  assert (Sp : split_once " " (k ++ " " ++ v) = Some (k, v))
    by (apply split_once_app, plain_no_space, Pk).
  split; unfold response_fmt, response_from; cbn [Command.as_ref];
    rewrite cap_keyword_ne by (reflexivity || exact Nr);
    rewrite trim_plain_space' by assumption; cbn [fst snd];
    replace (trim "S") with "S" by reflexivity;
    replace (trim "INQUIRE") with "INQUIRE" by reflexivity;
    cbn -[split_once append]; rewrite Sp; destruct v; (contradiction || reflexivity).
Qed.

Lemma response_status_inquire_roundtrip_witness :
  sforall plain "keyword" = true /\ clean "status information" = true /\
  response_from (response_fmt (Response.S ("keyword", "status information"))) =
    Some (Response.S ("keyword", "status information")).
Proof.
  split; [reflexivity | split; [reflexivity|]].
  refine (proj1 (response_status_inquire_roundtrip "keyword" "status information"
                   eq_refl _ eq_refl)).
  discriminate.
Defined.

Lemma decode_error_fmt e :
  (forall c, e = ResponseErr.Custom c ->
     (Custom.value c < 4294967296)%N /\ GpgErrorCode.from_code (Custom.value c) = None) ->
  decode_error (ResponseErr.fmt e) = e.
Proof.
  intros He. unfold decode_error, GpgErrorCode.try_from, Custom.try_from.
  destruct e as [c|[n]].
  - cbn [ResponseErr.fmt]. unfold GpgErrorCode.fmt.
    rewrite parse_u32_N_to_string by (destruct c; cbn; lia).
    destruct c; reflexivity.
  - destruct (He _ eq_refl) as [Hn Hf]. cbn [Custom.value] in Hn, Hf.
    cbn [ResponseErr.fmt]. unfold Custom.fmt. cbn [Custom.value].
    rewrite parse_u32_N_to_string by exact Hn. rewrite Hf. reflexivity.
Qed.

Lemma fmt_err_plain e : sforall plain (ResponseErr.fmt e) = true /\ ResponseErr.fmt e <> "".
Proof.
  destruct e as [c|[n]]; cbn [ResponseErr.fmt]; unfold GpgErrorCode.fmt, Custom.fmt;
    (split; [apply string_of_uint_plain | apply N_to_string_nonempty]).
Qed.

(** Round trip of error responses: the rendered [ERR code] or
    [ERR code description] line parses back to the same [Err] response,
    for every well-known code and for every custom code below 2^32 that is
    not one of the well-known codes; the description must be non-empty and
    without surrounding whitespace. *)
Theorem err_response_roundtrip : forall e d,
  (forall c, e = ResponseErr.Custom c ->
     (Custom.value c < 4294967296)%N /\ GpgErrorCode.from_code (Custom.value c) = None) ->
  clean_opt d = true ->
  response_from (response_fmt (Response.Err (e, d))) = Some (Response.Err (e, d)).
Proof.
  intros e d He Cd. pose proof (decode_error_fmt e He) as De.
  destruct (fmt_err_plain e) as [Pt Nt].
  destruct d as [v|].
  - destruct (clean_facts v Cd) as (Nv & _).
    assert (Nr : ResponseErr.fmt e ++ " " ++ v <> "")
      by (destruct (ResponseErr.fmt e); [contradiction | discriminate]).
    unfold response_fmt, response_from. cbn [Command.as_ref].
    rewrite cap_keyword_ne by (reflexivity || exact Nr).
    rewrite trim_plain_space' by assumption.
    replace (trim "ERR") with "ERR" by reflexivity. cbn [fst snd].
    cbn -[err_token_split decode_error append].
    change (ResponseErr.fmt e ++ " " ++ v) with (ResponseErr.fmt e ++ String " " v).
    rewrite err_token_split_desc by (apply plain_no_space, Pt || exact Nv).
    rewrite De. reflexivity.
  - unfold response_fmt, response_from. cbn [Command.as_ref].
    rewrite cap_keyword_ne by (reflexivity || exact Nt).
    replace (trim "ERR") with "ERR" by reflexivity.
    rewrite trim_plain by exact Pt. cbn [fst snd].
    cbn -[err_token_split decode_error append].
    rewrite err_token_split_token by (apply plain_no_space, Pt).
    rewrite De. reflexivity.
Qed.

Lemma err_response_roundtrip_witness :
  GpgErrorCode.from_code 32909 = None /\
  response_from (response_fmt (Response.Err (ResponseErr.Custom (Custom.mk 32909),
                                             Some "with description"))) =
    Some (Response.Err (ResponseErr.Custom (Custom.mk 32909), Some "with description")).
Proof.
  split; [reflexivity|].
  apply err_response_roundtrip; [|reflexivity].
  intros c E. injection E as <-. cbn [Custom.value]. split; [lia | reflexivity].
Defined.

Lemma writeln_ok wfail w s : wfail (attempts w) = false -> writeln wfail w s = (true, push w s).
Proof. intros F. unfold writeln. rewrite F. reflexivity. Qed.

Lemma serve_request {H : Type} `{Handler H} wfail (h : H) w l r req :
  trim l <> "" -> String.length (trim l) <= 1000 -> request_from (trim l) = Some req ->
  serve wfail h w (Line l :: r) =
  match dispatch wfail h w req with
  | Continue h' w' => serve wfail h' w' r
  | Stop o h' w' => (o, h', w')
  end.
Proof.
  intros Ne Le R. rewrite serve_cons. unfold handle_line. cbv zeta.
  apply String.eqb_neq in Ne. rewrite Ne.
  replace (Nat.ltb 1000 (String.length (trim l))) with false
    by (symmetry; apply Nat.ltb_ge; exact Le).
  rewrite R. reflexivity.
Qed.

(** The dispatcher on session-control requests (a line of at most 1000 bytes
    after trimming): [BYE] and [NOP] are answered with one [OK] line and the
    loop goes on (BYE does not close the session); [RESET] resets the handler,
    answers [OK] and goes on; [QUIT] writes nothing and ends the session
    successfully without reading further lines. *)
Theorem session_control_requests : forall (wfail : nat -> bool) (H : Type) (HH : Handler H)
    (h : H) (w : writer) (l : string) (r : list io_item),
  trim l <> "" -> String.length (trim l) <= 1000 ->
  ((request_from (trim l) = Some Request.Bye \/ request_from (trim l) = Some Request.Nop) ->
     wfail (attempts w) = false ->
     serve wfail h w (Line l :: r) = serve wfail h (push w "OK") r) /\
  (request_from (trim l) = Some Request.Reset -> wfail (attempts w) = false ->
     serve wfail h w (Line l :: r) = serve wfail (reset h) (push w "OK") r) /\
  (request_from (trim l) = Some Request.Quit ->
     serve wfail h w (Line l :: r) = (ReturnOk, h, w)).
Proof.
  intros wfail H HH h w l r Ne Le. split; [|split].
  - intros [R|R] F; rewrite (serve_request wfail h w l r _ Ne Le R); cbn [dispatch];
      rewrite writeln_ok by exact F; reflexivity.
  - intros R F. rewrite (serve_request wfail h w l r _ Ne Le R); cbn [dispatch].
    rewrite writeln_ok by exact F. reflexivity.
  - intros R. rewrite (serve_request wfail h w l r _ Ne Le R). reflexivity.
Qed.

Lemma session_control_requests_witness :
  trim "  BYE  " = "BYE" /\
  serve never_fail tt empty_writer [Line "  BYE  "] =
    serve never_fail tt (push empty_writer "OK") [].
Proof.
  split; [reflexivity|].
  refine (proj1 (session_control_requests never_fail unit test_handler_inst tt empty_writer
                   "  BYE  " [] _ _) _ eq_refl).
  - vm_compute. discriminate.
  - vm_compute. lia.
  - left. reflexivity.
Defined.

Lemma request_from_hash rest : valid_utf8 rest = true ->
  request_from (String "#" rest) = Some (Request.Comment (non_empty (trim rest))).
Proof.
  intros Hv. unfold request_from. cbv zeta.
  rewrite comment_keyword by exact Hv. cbn [Command.as_ref String.eqb Ascii.eqb Bool.eqb].
  unfold slice_from1. rewrite boundary_hash by exact Hv. reflexivity.
Qed.

(** A line whose trimmed form starts with [#] (and is at most 1000 bytes)
    is skipped: nothing is written, the handler is not called, and the loop
    goes on with the next line. *)
Theorem comment_lines_ignored : forall (wfail : nat -> bool) (H : Type) (HH : Handler H)
    (h : H) (w : writer) (l rest : string) (r : list io_item),
  trim l = String "#" rest -> valid_utf8 rest = true -> String.length (trim l) <= 1000 ->
  serve wfail h w (Line l :: r) = serve wfail h w r.
Proof.
  intros wfail H HH h w l rest r T Hv Le.
  assert (Ne : trim l <> "") by (rewrite T; discriminate).
  pose proof (request_from_hash rest Hv) as R. rewrite <- T in R.
  rewrite (serve_request wfail h w l r _ Ne Le R). reflexivity.
Qed.

Lemma comment_lines_ignored_witness :
  trim " # a note " = String "#" " a note" /\
  serve never_fail tt empty_writer [Line " # a note "; Line "NOP"] =
    serve never_fail tt empty_writer [Line "NOP"].
Proof.
  split; [reflexivity|].
  apply (comment_lines_ignored never_fail unit test_handler_inst tt empty_writer
           " # a note " " a note" [Line "NOP"]); [reflexivity | reflexivity | vm_compute; lia].
Defined.

(** An [OPTION] request is passed to the handler's [option] method; its
    response, or [Err] of its error, is written as one line and the loop
    goes on with the handler's new state. *)
Theorem option_request_dispatch : forall (wfail : nat -> bool) (H : Type) (HH : Handler H)
    (h h' : H) (w : writer) (l s : string) (v : Datatypes.option string)
    (res : OptionResult) (r : list io_item),
  trim l <> "" -> String.length (trim l) <= 1000 ->
  request_from (trim l) = Some (Request.Option (s, v)) ->
  option h s v = (h', res) -> wfail (attempts w) = false ->
  serve wfail h w (Line l :: r) =
  serve wfail h'
    (push w (response_fmt (match res with ROk resp => resp | RErr e => Response.Err e end))) r.
Proof.
  intros wfail H HH h h' w l s v res r Ne Le R Ho F.
  rewrite (serve_request wfail h w l r _ Ne Le R). cbn [dispatch]. rewrite Ho.
  destruct res; rewrite writeln_ok by exact F; reflexivity.
Qed.

Lemma option_request_dispatch_witness :
  request_from (trim "OPTION a=b") = Some (Request.Option ("a", Some "b")) /\
  serve never_fail tt empty_writer [Line "OPTION a=b"] =
    serve never_fail tt (push empty_writer (response_fmt (Response.Ok None))) [].
Proof.
  split; [reflexivity|].
  refine (option_request_dispatch never_fail unit test_handler_inst tt tt empty_writer
            "OPTION a=b" "a" (Some "b") (ROk (Response.Ok None)) [] _ _ eq_refl eq_refl eq_refl).
  - vm_compute. discriminate.
  - vm_compute. lia.
Defined.

(** A request parsed as [Unknown] is passed to the handler's [handle]
    method.  [Ok(None)] ends the session successfully, with nothing written
    and no further line read; [Ok(Some(response))] writes the response and
    [Err(e)] writes [Err(e)], and the loop goes on. *)
Theorem custom_request_dispatch : forall (wfail : nat -> bool) (H : Type) (HH : Handler H)
    (h h' : H) (w : writer) (l v : string) (p : Datatypes.option string)
    (res : HandlerResult) (r : list io_item),
  trim l <> "" -> String.length (trim l) <= 1000 ->
  request_from (trim l) = Some (Request.Unknown (v, p)) ->
  handle h v p = (h', res) ->
  (res = ROk None -> serve wfail h w (Line l :: r) = (ReturnOk, h', w)) /\
  (forall resp, res = ROk (Some resp) -> wfail (attempts w) = false ->
     serve wfail h w (Line l :: r) = serve wfail h' (push w (response_fmt resp)) r) /\
  (forall e, res = RErr e -> wfail (attempts w) = false ->
     serve wfail h w (Line l :: r) = serve wfail h' (push w (response_fmt (Response.Err e))) r).
Proof.
  intros wfail H HH h h' w l v p res r Ne Le R Hd.
  rewrite (serve_request wfail h w l r _ Ne Le R). cbn [dispatch]. rewrite Hd.
  split; [|split].
  - intros ->. reflexivity.
  - intros resp -> F. rewrite writeln_ok by exact F. reflexivity.
  - intros e -> F. rewrite writeln_ok by exact F. reflexivity.
Qed.

Lemma custom_request_dispatch_witness :
  request_from (trim "BYEBYE") = Some (Request.Unknown ("BYEBYE", None)) /\
  serve never_fail tt empty_writer [Line "BYEBYE"; Line "NOP"] = (ReturnOk, tt, empty_writer).
Proof.
  split; [reflexivity|].
  refine (proj1 (custom_request_dispatch never_fail unit test_handler_inst tt tt empty_writer
                   "BYEBYE" "BYEBYE" None (ROk None) [Line "NOP"] _ _ eq_refl eq_refl) eq_refl).
  - vm_compute. discriminate.
  - vm_compute. lia.
Defined.

Lemma write_comments_ok wfail w v : (forall n, attempts w <= n -> wfail n = false) ->
  write_comments wfail w v =
  mkWriter (attempts w + length v) (written w ++ map comment_line v)%list.
Proof.
  revert w. induction v as [|s v IH]; intros w F; cbn [write_comments].
  - destruct w; cbn. rewrite Nat.add_0_r, app_nil_r. reflexivity.
  - rewrite writeln_ok by (apply F; lia). cbn [snd].
    rewrite IH by (intros n Hn; apply F; cbn in Hn; lia).
    cbn. rewrite <- app_assoc. f_equal. lia.
Qed.

(** [HELP], when every write succeeds, writes one comment line per entry
    of the handler's help list, in order, then one [OK] line (only [OK]
    when the handler has no help list), and the loop goes on. *)
Theorem help_request_output : forall (wfail : nat -> bool) (H : Type) (HH : Handler H)
    (h h' : H) (w : writer) (l : string) (hv : HelpResult) (r : list io_item),
  trim l <> "" -> String.length (trim l) <= 1000 ->
  request_from (trim l) = Some Request.Help -> help h = (h', hv) ->
  (forall n, attempts w <= n -> wfail n = false) ->
  let v := match hv with Some v => v | None => [] end in
  serve wfail h w (Line l :: r) =
  serve wfail h' (mkWriter (attempts w + length v + 1)
                    (written w ++ map comment_line v ++ ["OK"])%list) r.
Proof.
  intros wfail H HH h h' w l hv r Ne Le R Hh F v.
  rewrite (serve_request wfail h w l r _ Ne Le R). cbn [dispatch]. rewrite Hh.
  assert (Wc : (match hv with Some v => write_comments wfail w v | None => w end) =
               mkWriter (attempts w + length v) (written w ++ map comment_line v)%list).
  { subst v. destruct hv as [v|]; [apply write_comments_ok, F|].
    destruct w; cbn. rewrite Nat.add_0_r, app_nil_r. reflexivity. }
  rewrite Wc. rewrite writeln_ok by (apply F; cbn; lia).
  unfold push. cbn [attempts written]. rewrite <- app_assoc.
  replace (attempts w + length v + 1) with (Datatypes.S (attempts w + length v)) by lia.
  reflexivity.
Qed.

Lemma help_request_output_witness :
  help tt = (tt, Some ["FOO"; "BAR"]) /\
  serve never_fail tt empty_writer [Line "HELP"] =
    serve never_fail tt (mkWriter 3 ["# FOO"; "# BAR"; "OK"]) [].
Proof.
  split; [reflexivity|].
  refine (help_request_output never_fail unit test_handler_inst tt tt empty_writer "HELP"
            (Some ["FOO"; "BAR"]) [] _ _ eq_refl eq_refl (fun _ _ => eq_refl)).
  - vm_compute. discriminate.
  - vm_compute. lia.
Defined.

(** Round trip of lib.rs's borrowed-string [Request] codec: [D], comments
    and unrecognised commands render and parse back to the same request
    (texts non-empty without surrounding whitespace; command words of
    printable ASCII, not a keyword, not starting with [#]). *)
Theorem lib_request_roundtrip : forall v c p,
  clean v = true ->
  sforall plain c = true -> c <> "" -> String.get 0 c <> Some "#"%char ->
  request_keyword c = false -> clean_opt p = true ->
  lib_request_from (lib_request_fmt (Request.D v)) = Some (Request.D v) /\
  lib_request_from (lib_request_fmt (Request.Comment (Some v))) =
    Some (Request.Comment (Some v)) /\
  lib_request_from (lib_request_fmt (Request.Comment None)) = Some (Request.Comment None) /\
  lib_request_from (lib_request_fmt (Request.Unknown (c, p))) = Some (Request.Unknown (c, p)).
Proof.
  intros v c p Cv Pc Nc Gc Kc Cp. destruct (clean_facts v Cv) as (Nv & _).
  pose proof (trim_clean v Cv) as Tv.
  split; [|split; [|split; [reflexivity|]]].
  - unfold lib_request_fmt, lib_request_from.
    rewrite cap_keyword_ne by (reflexivity || exact Nv). rewrite Tv. reflexivity.
  - unfold lib_request_fmt, lib_request_from.
    rewrite cap_keyword_ne by (reflexivity || exact Nv). rewrite Tv. reflexivity.
  - destruct (head_slice c Pc Nc Gc) as (h & Sh & Eh).
    assert (CP : command_and_parameters (lib_request_fmt (Request.Unknown (c, p))) = (c, p)).
    { destruct p as [q|]; cbn [lib_request_fmt].
      - pose proof (clean_facts q Cp) as (Nq & _).
        rewrite cap_keyword_ne by (apply plain_no_space, Pc || exact Nq).
        rewrite trim_plain by exact Pc. rewrite trim_clean by exact Cp. reflexivity.
      - apply cap_no_space, plain_no_space, Pc. }
    unfold lib_request_from. rewrite CP. cbn [fst]. rewrite Sh, Eh.
    unfold request_keyword in Kc. cbn [existsb] in Kc.
    repeat (let K := fresh "K" in apply orb_false_iff in Kc as [K Kc]; rewrite K). reflexivity.
Qed.

Lemma lib_request_roundtrip_witness :
  request_keyword "FOO" = false /\
  lib_request_from (lib_request_fmt (Request.Unknown ("FOO", Some "bar"))) =
    Some (Request.Unknown ("FOO", Some "bar")).
Proof.
  split; [reflexivity|].
  refine (proj2 (proj2 (proj2 (lib_request_roundtrip "data" "FOO" (Some "bar")
                                 eq_refl eq_refl _ _ eq_refl eq_refl))));
    discriminate.
Defined.

(** Round trip of lib.rs's borrowed-string [Response] codec for [OK], [D]
    and [ERR]: the raw code token (printable ASCII, no spaces) and the
    description come back unchanged. *)
Theorem lib_response_roundtrip : forall v id d,
  clean v = true -> sforall plain id = true -> id <> "" -> clean_opt d = true ->
  lib_response_from (lib_response_fmt (LibResponse.Ok (Some v))) = Some (LibResponse.Ok (Some v)) /\
  lib_response_from (lib_response_fmt (LibResponse.Ok None)) = Some (LibResponse.Ok None) /\
  lib_response_from (lib_response_fmt (LibResponse.D v)) = Some (LibResponse.D v) /\
  lib_response_from (lib_response_fmt (LibResponse.Err (id, d))) = Some (LibResponse.Err (id, d)).
Proof.
  intros v id d Cv Pid Nid Cd. destruct (clean_facts v Cv) as (Nv & _).
  pose proof (trim_clean v Cv) as Tv.
  split; [|split; [reflexivity|split]].
  - unfold lib_response_fmt, lib_response_from.
    rewrite cap_keyword_ne by (reflexivity || exact Nv). rewrite Tv. reflexivity.
  - unfold lib_response_fmt, lib_response_from.
    rewrite cap_keyword_ne by (reflexivity || exact Nv). rewrite Tv. reflexivity.
  - destruct d as [u|].
    + destruct (clean_facts u Cd) as (Nu & _).
      assert (Nr : id ++ " " ++ u <> "") by (destruct id; [contradiction | discriminate]).
      unfold lib_response_fmt, lib_response_from.
      rewrite cap_keyword_ne by (reflexivity || exact Nr).
      rewrite trim_plain_space' by assumption.
      replace (trim "ERR") with "ERR" by reflexivity.
      cbn -[split_once append].
      change (id ++ " " ++ u) with (id ++ String " " u).
      rewrite split_once_app by (apply plain_no_space, Pid).
      destruct u; [contradiction | reflexivity].
    + unfold lib_response_fmt, lib_response_from.
      rewrite cap_keyword_ne by (reflexivity || exact Nid).
      replace (trim "ERR") with "ERR" by reflexivity.
      rewrite trim_plain by exact Pid.
      cbn -[split_once]. rewrite split_once_none by (apply plain_no_space, Pid).
      reflexivity.
Qed.

Lemma lib_response_roundtrip_witness :
  sforall plain "id" = true /\
  lib_response_from (lib_response_fmt (LibResponse.Err ("id", Some "a description"))) =
    Some (LibResponse.Err ("id", Some "a description")).
Proof.
  split; [reflexivity|].
  refine (proj2 (proj2 (proj2 (lib_response_roundtrip "data" "id" (Some "a description")
                                 eq_refl eq_refl _ eq_refl))));
    discriminate.
Defined.

(** ** C1: how a line ends the session *)

Lemma report_one {H : Type} (h : H) w s :
  exists h' w' out, Continue h (push w s) = Continue h' w' /\ out <> [] /\
    written w' = (written w ++ out)%list /\ attempts w' = attempts w + length out.
Proof.
  exists h, (push w s), [s]. split; [reflexivity|]. split; [discriminate|].
  unfold push; cbn [written attempts length]. split; [reflexivity | lia].
Qed.

Lemma handle_line_parsed {H : Type} `{Handler H} wfail (h : H) w l req :
  trim l <> "" -> String.length (trim l) <= 1000 -> request_from (trim l) = Some req ->
  handle_line wfail h w (Line l) = dispatch wfail h w req.
Proof.
  intros Hne Hle R. unfold handle_line. cbv zeta.
  rewrite (proj2 (String.eqb_neq _ _) Hne), (proj2 (Nat.ltb_ge 1000 _) Hle), R.
  reflexivity.
Qed.

(** C1 (counterexample): a line parsed as [D] ends the session with a panic
    ([todo!()]) instead of being reported with the loop going on; and a
    failed greeting write panics ([unwrap]) instead of returning a write
    error. *)
Lemma dispatcher_abort_counterexample :
  start never_fail tt [Line "D data"; Line "NOP"] =
    (Panic, tt, mkWriter 1 [greeting]) /\
  start (fun _ => true) tt [Line "NOP"] = (Panic, tt, mkWriter 1 []).
Proof. vm_compute. split; reflexivity. Qed.

(** C1 (amended): the greeting [OK Pleased to meet you] is written before
    any input is read; a read error is answered with an [Err] carrying the
    well-known "unexpected" code and the loop goes on.  For a line on which
    the parser returns: a line parsed as [D], [END] or [CANCEL] aborts the
    session (the unimplemented sub-dialogue); [QUIT], or a custom command
    the handler answers with no response, ends the session successfully;
    a blank line or a comment is ignored; every other line (oversized,
    malformed request routed to the handler, handler failure, ...) is
    answered with at least one response line, each costing one write, and
    the loop goes on when those writes succeed; and a line ends the session
    with a write-error outcome only after one of its writes failed. *)
Theorem dispatcher_termination : forall (wfail : nat -> bool) (H : Type) (HH : Handler H),
  (forall (h : H) r, wfail 0 = false ->
     start wfail h r = serve wfail h (mkWriter 1 [greeting]) r) /\
  (forall (h : H) w e, wfail (attempts w) = false ->
     handle_line wfail h w (ReadErr e) =
     Continue h (mkWriter (Datatypes.S (attempts w))
                   (written w ++ [response_fmt (Response.Err
                      (ResponseErr.Gpg GpgErrorCode.Unexpected, Some e))])%list)) /\
  (forall (h : H) w l req, trim l <> "" -> String.length (trim l) <= 1000 ->
     request_from (trim l) = Some req ->
     (exists p, req = Request.D p) \/ req = Request.End \/ req = Request.Cancel ->
     handle_line wfail h w (Line l) = Stop Panic h w) /\
  (forall (h : H) w l, trim l <> "" -> String.length (trim l) <= 1000 ->
     request_from (trim l) = Some Request.Quit ->
     handle_line wfail h w (Line l) = Stop ReturnOk h w) /\
  (forall (h h' : H) w l v p, trim l <> "" -> String.length (trim l) <= 1000 ->
     request_from (trim l) = Some (Request.Unknown (v, p)) -> handle h v p = (h', ROk None) ->
     handle_line wfail h w (Line l) = Stop ReturnOk h' w) /\
  (forall (h : H) w l, trim l = "" -> handle_line wfail h w (Line l) = Continue h w) /\
  (forall (h : H) w l t, String.length (trim l) <= 1000 ->
     request_from (trim l) = Some (Request.Comment t) ->
     handle_line wfail h w (Line l) = Continue h w) /\
  (forall (h : H) w l, (forall n, attempts w <= n -> wfail n = false) -> trim l <> "" ->
     (1000 < String.length (trim l) \/
      exists req, request_from (trim l) = Some req /\
        (forall t, req <> Request.Comment t) /\ (forall p, req <> Request.D p) /\
        req <> Request.End /\ req <> Request.Cancel /\ req <> Request.Quit /\
        (forall v p, req = Request.Unknown (v, p) -> snd (handle h v p) <> ROk None)) ->
     exists h' w' out, handle_line wfail h w (Line l) = Continue h' w' /\ out <> [] /\
       written w' = (written w ++ out)%list /\ attempts w' = attempts w + length out) /\
  (forall (h : H) w item o h' w', handle_line wfail h w item = Stop o h' w' ->
     (forall l, item = Line l -> trim l <> "" -> String.length (trim l) <= 1000 ->
        request_from (trim l) <> None) ->
     (o = ReturnWriteErr /\
        exists n, attempts w <= n /\ n < attempts w' /\ wfail n = true)
     \/ (o = ReturnOk /\ exists l, item = Line l /\
           (request_from (trim l) = Some Request.Quit
            \/ exists v p h'', request_from (trim l) = Some (Request.Unknown (v, p))
                               /\ handle h v p = (h'', ROk None)))
     \/ (o = Panic /\ exists l, item = Line l /\
           ((exists p, request_from (trim l) = Some (Request.D p))
            \/ request_from (trim l) = Some Request.End
            \/ request_from (trim l) = Some Request.Cancel))).
Proof.
  intros wfail H HH.
  split; [|split; [|split; [|split; [|split; [|split; [|split; [|split]]]]]]].
  - intros h r Hw. unfold start, writeln, empty_writer. cbn [attempts]. rewrite Hw. reflexivity.
  - intros h w e Hw. unfold handle_line, after_write, writeln. rewrite Hw. reflexivity.
  - intros h w l req Hne Hle R Hreq. rewrite (handle_line_parsed wfail h w l req Hne Hle R).
    destruct Hreq as [[p ->]|[-> | ->]]; reflexivity.
  - intros h w l Hne Hle R. rewrite (handle_line_parsed wfail h w l _ Hne Hle R). reflexivity.
  - intros h h' w l v p Hne Hle R Hd. rewrite (handle_line_parsed wfail h w l _ Hne Hle R).
    cbn [dispatch]. rewrite Hd. reflexivity.
  - intros h w l Hl. unfold handle_line. cbv zeta. rewrite Hl. reflexivity.
  - intros h w l t Hle R. destruct (String.eqb (trim l) "") eqn:Eb.
    + unfold handle_line. cbv zeta. rewrite Eb. reflexivity.
    + apply String.eqb_neq in Eb. rewrite (handle_line_parsed wfail h w l _ Eb Hle R).
      reflexivity.
  - intros h w l F Hne Hcase.
    assert (F0 : wfail (attempts w) = false) by (apply F; lia).
    destruct (Nat.ltb 1000 (String.length (trim l))) eqn:El.
    + unfold handle_line. cbv zeta. rewrite (proj2 (String.eqb_neq _ _) Hne), El.
      rewrite (writeln_ok _ _ _ F0). apply report_one.
    + apply Nat.ltb_ge in El.
      destruct Hcase as [Hgt | (req & R & Hc & Hd & He & Hca & Hq & Hu)]; [lia|].
      rewrite (handle_line_parsed wfail h w l req Hne El R).
      destruct req as [t|p| | | | | |[s v]| | |[v p]]; cbn [dispatch];
        try (exfalso; solve [eapply Hc; reflexivity | eapply Hd; reflexivity
                            | apply He; reflexivity | apply Hca; reflexivity
                            | apply Hq; reflexivity]);
        try (rewrite (writeln_ok _ _ _ F0); apply report_one).
      * destruct (help h) as [h1 [v|]].
        -- rewrite (write_comments_ok _ _ _ F).
           rewrite (writeln_ok wfail (mkWriter (attempts w + length v) (written w ++ map comment_line v)%list)
                        _ (F (attempts w + length v) ltac:(lia))).
           exists h1, (push (mkWriter (attempts w + length v)
                                (written w ++ map comment_line v)%list)
                         (response_fmt (Response.Ok None))),
                  (map comment_line v ++ [response_fmt (Response.Ok None)])%list.
           split; [reflexivity|]. split.
           { destruct (map comment_line v); discriminate. }
           unfold push; cbn [written attempts]. rewrite <- app_assoc, length_app, length_map.
           cbn [length]. split; [reflexivity | lia].
        -- rewrite (writeln_ok _ _ _ F0). apply report_one.
      * destruct (option h s v) as [h1 [resp|e]];
          rewrite (writeln_ok _ _ _ F0); apply report_one.
      * specialize (Hu v p eq_refl).
        destruct (handle h v p) as [h1 [[resp|]|e]]; cbn [snd] in Hu.
        -- rewrite (writeln_ok _ _ _ F0). apply report_one.
        -- exfalso. apply Hu. reflexivity.
        -- rewrite (writeln_ok _ _ _ F0). apply report_one.
  - intros h w item o h' w' E HP.
    assert (WF : forall h0 w0 s, attempts w <= attempts w0 ->
              after_write h0 (writeln wfail w0 s) = Stop o h' w' ->
              o = ReturnWriteErr /\
              exists n, attempts w <= n /\ n < attempts w' /\ wfail n = true).
    { intros h0 w0 s Hle Ew. apply after_write_stop in Ew as (-> & Ha & Hf).
      split; [reflexivity|]. exists (attempts w0). rewrite Ha. repeat split; auto. }
    destruct item as [e|l].
    + left. exact (WF h w _ (le_n _) E).
    + unfold handle_line in E. cbv zeta in E.
      destruct (String.eqb (trim l) "") eqn:Eb; [discriminate E|].
      destruct (Nat.ltb 1000 (String.length (trim l))) eqn:El.
      { left. exact (WF h w _ (le_n _) E). }
      destruct (request_from (trim l)) as [req|] eqn:R.
      2: { exfalso. apply (HP l eq_refl); [apply String.eqb_neq; exact Eb
                                         | apply Nat.ltb_ge; exact El | exact R]. }
      destruct req as [t|p| | | | | |[s v]| | |[v p]]; cbn [dispatch] in E.
      * discriminate E.
      * injection E as <- _ _. right. right. split; [reflexivity|].
        exists l. split; [reflexivity|]. left. exists p. exact R.
      * left. exact (WF h w _ (le_n _) E).
      * left. exact (WF _ w _ (le_n _) E).
      * injection E as <- _ _. right. right. split; [reflexivity|].
        exists l. split; [reflexivity|]. right. left. exact R.
      * destruct (help h) as [h1 hv]. left. refine (WF h1 _ _ _ E).
        destruct hv as [v|]; [apply write_comments_attempts | apply le_n].
      * injection E as <- _ _. right. left. split; [reflexivity|].
        exists l. split; [reflexivity|]. left. exact R.
      * destruct (option h s v) as [h1 [resp|err]].
        -- left. exact (WF h1 w _ (le_n _) E).
        -- left. exact (WF h1 w _ (le_n _) E).
      * injection E as <- _ _. right. right. split; [reflexivity|].
        exists l. split; [reflexivity|]. right. right. exact R.
      * left. exact (WF h w _ (le_n _) E).
      * destruct (handle h v p) as [h1 [[resp|]|err]] eqn:Hd.
        -- left. exact (WF h1 w _ (le_n _) E).
        -- injection E as <- _ _. right. left. split; [reflexivity|].
           exists l. split; [reflexivity|]. right. exists v, p, h1. split; assumption.
        -- left. exact (WF h1 w _ (le_n _) E).
Qed.

Lemma dispatcher_termination_witness :
  start never_fail tt [Line "NOP"] = serve never_fail tt (mkWriter 1 [greeting]) [Line "NOP"] /\
  handle_line never_fail tt empty_writer (Line "D data") = Stop Panic tt empty_writer /\
  (exists h' w' out, handle_line never_fail tt empty_writer (Line " NOP ") = Continue h' w' /\
     out <> [] /\ written w' = (written empty_writer ++ out)%list /\
     attempts w' = attempts empty_writer + length out) /\
  ((ReturnOk = ReturnWriteErr /\ exists n, 0 <= n /\ n < 0 /\ never_fail n = true)
   \/ (ReturnOk = ReturnOk /\ exists l, Line "QUIT" = Line l /\
         (request_from (trim l) = Some Request.Quit
          \/ exists v p h'', request_from (trim l) = Some (Request.Unknown (v, p))
                             /\ handle tt v p = (h'', ROk None)))
   \/ (ReturnOk = Panic /\ exists l, Line "QUIT" = Line l /\
         ((exists p, request_from (trim l) = Some (Request.D p))
          \/ request_from (trim l) = Some Request.End
          \/ request_from (trim l) = Some Request.Cancel))).
Proof.
  destruct (dispatcher_termination never_fail unit test_handler_inst)
    as (Hg & _ & Ha & _ & _ & _ & _ & Hr & Hs).
  split; [exact (Hg tt _ eq_refl)|].
  split.
  { apply (Ha tt empty_writer "D data" (Request.D "data")).
    - vm_compute. discriminate.
    - vm_compute. lia.
    - reflexivity.
    - left. exists "data". reflexivity. }
  split.
  { apply (Hr tt empty_writer " NOP ").
    - intros n _. reflexivity.
    - vm_compute. discriminate.
    - right. exists Request.Nop. split; [reflexivity|].
      split; [intros t; discriminate|]. split; [intros p; discriminate|].
      split; [discriminate|]. split; [discriminate|]. split; [discriminate|].
      intros v p E. discriminate E. }
  apply (Hs tt empty_writer (Line "QUIT") ReturnOk tt empty_writer).
  - reflexivity.
  - intros l E. injection E as <-. vm_compute. discriminate.
Defined.
